(** * The dashboard client: [lib/api.ts] and the [useDashboard] hook

    A shallow embedding of the authenticated API helpers of
    [frontend/src/lib/api.ts] and of the pagination hook of
    [frontend/src/hooks/useDashboard.ts], followed by the properties the
    specification states about them.

    Conventions.
    - A JavaScript [number] that counts records, pages or identifiers is an
      integer of [Z]; [===] on numbers is [Z.eqb].
    - An [async] function is split at its [await]: the part that runs
      synchronously when the function is called, and the part that runs when
      the awaited promise settles (named [..._resume]).  A settled promise is
      a value of [thrown + A]: rejected with a thrown value, or fulfilled.
    - React state setters are applied in the order they are called, and a
      callback reads the state committed by the latest render (every
      [useCallback] of the hook lists the state it reads as a dependency).
    - The promises the hook is waiting for are part of its state, so that
      overlapping requests and the order in which they settle can be told
      apart. *)

From Stdlib Require Import ZArith List String Bool Lia DecimalString.
From Stdlib Require DecimalZ DecimalPos.
From stdpp Require Import gmap strings.
Import ListNotations.

#[local] Set Warnings "-register-all".
#[local] Open Scope string_scope.
#[local] Open Scope Z_scope.

(** ** JavaScript values the two files handle *)

Module Js.

(** What a [throw] or a rejected promise carries.  [err instanceof Error]
    holds for [ErrorObj] (which covers [TypeError] and [SyntaxError]) and
    fails for anything else. *)
Inductive thrown : Type :=
| ErrorObj (message : string)
| NotAnError.

(** A parsed JSON document, the run-time result of [response.json()].
    Object fields are kept in order with distinct keys; numbers are
    integers. *)
Inductive json : Type :=
| JNull
| JBool (b : bool)
| JNum (n : Z)
| JStr (s : string)
| JArr (items : list json)
| JObj (fields : list (string * json)).

(** [n.toString()] and [`${n}`] for an integer. *)
Definition decimal (n : Z) : string := NilZero.string_of_int (Z.to_int n).

(** [undefined] is [None]. *)
Definition truthy (v : option json) : bool :=
  match v with
  | None => false
  | Some JNull => false
  | Some (JBool b) => b
  | Some (JNum n) => negb (n =? 0)
  | Some (JStr s) => negb (String.eqb s "")
  | Some (JArr _) => true
  | Some (JObj _) => true
  end.

(** The string conversion [new Error(v)] applies to its argument. *)
Fixpoint ToString (v : json) : string :=
  match v with
  | JNull => "null"
  | JBool true => "true"
  | JBool false => "false"
  | JNum n => decimal n
  | JStr s => s
  | JArr items =>
      String.concat ","
        (List.map (fun e => match e with JNull => "" | _ => ToString e end) items)
  | JObj _ => "[object Object]"
  end.

Fixpoint assoc (key : string) (fields : list (string * json)) : option json :=
  match fields with
  | [] => None
  | (k, v) :: rest => if String.eqb k key then Some v else assoc key rest
  end.

(** [v.key]: a [TypeError] on [null], [undefined] on a value without the
    property. *)
Definition get_prop (v : json) (key : string) : thrown + option json :=
  match v with
  | JNull =>
      inl (ErrorObj ("Cannot read properties of null (reading '" ++ key ++ "')"))
  | JObj fields => inr (assoc key fields)
  | _ => inr None
  end.

End Js.

Export Js.

(** ** Records exchanged with the backend ([lib/api.ts], lines 26-46) *)

Module Data.

Record Activity : Type := {
id : Z;
user_id : Z;
action_type : string;
description : option string;
extra_data : option (list (string * json));
created_at : string
}.

Record ActivityCreateData : Type := {
new_action_type : string;
new_description : option string;
new_extra_data : option (list (string * json))
}.

Record ActivityStats : Type := {
total_count : Z;
by_type : list (string * Z);
by_date : list (string * Z);
most_common_action : option string
}.

End Data.

Export Data.

(** ** [lib/api.ts]: the authenticated calls *)

Module Api.

Definition DASHBOARD_API_URL : string := "/api/dashboard".

(** The browser state the helpers touch: [localStorage] and
    [window.location.href]. *)
Record Env : Type := {
  localStorage : gmap string string;
  location_href : string
}.

(** The argument of [fetch].  The query is kept as the list of pairs given
    to [URLSearchParams]; an empty list is a URL without [?]. *)
Record Request : Type := {
  method : string;
  path : string;
  query : list (string * string);
  headers : list (string * string);
  body : option json
}.

(** What the helpers read of a [Response]: [status], [ok], and the promise
    [json()] returns. *)
Record Response : Type := {
  status : Z;
  ok : bool;
  json_body : thrown + json
}.

(** A computation of [api.ts]: it reads the network ([fetch] settles with a
    response or rejects), updates the browser state, logs the requests it
    sends, and returns or throws. *)
Definition Api (A : Type) : Type :=
  (Request -> thrown + Response) -> Env -> Env * list Request * (thrown + A).

Definition ret {A} (a : A) : Api A := fun _ env => (env, [], inr a).

Definition throw {A} (e : thrown) : Api A := fun _ env => (env, [], inl e).

Definition bind {A B} (m : Api A) (k : A -> Api B) : Api B :=
  fun net env =>
    match m net env with
    | (env1, sent1, inl e) => (env1, sent1, inl e)
    | (env1, sent1, inr a) =>
        match k a net env1 with
        | (env2, sent2, r) => (env2, (sent1 ++ sent2)%list, r)
        end
    end.

Notation "'let*' x ':=' m 'in' k" := (bind m (fun x => k))
  (at level 10, x name, m at level 200, k at level 200).
Notation "'do' m 'then' k" := (bind m (fun _ => k))
  (at level 10, m at level 200, k at level 200).

Definition fetch (req : Request) : Api Response :=
  fun net env => (env, [req], net req).

Definition getItem (key : string) : Api (option string) :=
  fun _ env => (env, [], inr (localStorage env !! key)).

Definition removeItem (key : string) : Api unit :=
  fun _ env =>
    ({| localStorage := delete key (localStorage env);
        location_href := location_href env |}, [], inr tt).

Definition set_location_href (url : string) : Api unit :=
  fun _ env =>
    ({| localStorage := localStorage env; location_href := url |}, [], inr tt).

(** [await p]: the value of a settled promise, or its rejection rethrown. *)
Definition await {A} (p : thrown + A) : Api A :=
  match p with
  | inl e => throw e
  | inr a => ret a
  end.

(** [getAuthToken] (lines 118-124); [!token] holds for a missing item and
    for the empty string. *)
Definition getAuthToken : Api string :=
  let* token := getItem "token" in
  match token with
  | None => throw (ErrorObj "Authentication required. Please log in.")
  | Some t =>
      if String.eqb t "" then
        throw (ErrorObj "Authentication required. Please log in.")
      else ret t
  end.

(** [handleAuthenticatedResponse] (lines 130-149).  The result is the
    run-time value: [None] is the [undefined] returned for 204, [Some v]
    the parsed body. *)
Definition handleAuthenticatedResponse (response : Response) : Api (option json) :=
  if status response =? 401 then
    do removeItem "token" then
    do set_location_href "/login" then
    throw (ErrorObj "Session expired. Please log in again.")
  else if negb (ok response) then
    let error :=
      match json_body response with
      | inr v => v
      | inl _ => JObj [("detail", JStr "Unknown error")]
      end in
    let* detail := await (get_prop error "detail") in
    throw (ErrorObj
             (match detail with
              | Some d =>
                  if truthy detail then ToString d
                  else "Request failed with status " ++ decimal (status response)
              | None => "Request failed with status " ++ decimal (status response)
              end))
  else if status response =? 204 then
    ret None
  else
    let* v := await (json_body response) in
    ret (Some v).

Definition bearer (token : string) : string * string :=
  ("Authorization", "Bearer " ++ token).

Definition opt_field (key : string) (v : option json) : list (string * json) :=
  match v with
  | Some j => [(key, j)]
  | None => []
  end.

(** [JSON.stringify(data)] as the document it denotes: absent optional
    fields are left out. *)
Definition stringify (data : ActivityCreateData) : json :=
  JObj ([("action_type", JStr (new_action_type data))]
          ++ opt_field "description" (option_map JStr (new_description data))
          ++ opt_field "extra_data" (option_map JObj (new_extra_data data)))%list.

(** [createActivity] (lines 155-168). *)
Definition createActivity (data : ActivityCreateData) : Api (option json) :=
  let* token := getAuthToken in
  let* response := fetch {| method := "POST";
                       path := DASHBOARD_API_URL ++ "/activities";
                       query := [];
                       headers := [("Content-Type", "application/json");
                                   bearer token];
                       body := Some (stringify data) |} in
  handleAuthenticatedResponse response.

(** [getActivities] (lines 174-190); an omitted argument takes the default
    of the parameter list. *)
Definition getActivities (limit offset : option Z) : Api (option json) :=
  let limit := default 50 limit in
  let offset := default 0 offset in
  let* token := getAuthToken in
  let params := [("limit", decimal limit); ("offset", decimal offset)] in
  let* response := fetch {| method := "GET";
                       path := DASHBOARD_API_URL ++ "/activities";
                       query := params;
                       headers := [bearer token];
                       body := None |} in
  handleAuthenticatedResponse response.

(** [getActivity] (lines 196-207). *)
Definition getActivity (id : Z) : Api (option json) :=
  let* token := getAuthToken in
  let* response := fetch {| method := "GET";
                       path := DASHBOARD_API_URL ++ "/activities/" ++ decimal id;
                       query := [];
                       headers := [bearer token];
                       body := None |} in
  handleAuthenticatedResponse response.

(** [if (s) params.append(key, s)]: an absent or empty string adds
    nothing. *)
Definition append_if (key : string) (s : option string) : list (string * string) :=
  match s with
  | Some v => if String.eqb v "" then [] else [(key, v)]
  | None => []
  end.

(** [getActivityStats] (lines 213-237). *)
Definition getActivityStats (startDate endDate : option string) : Api (option json) :=
  let* token := getAuthToken in
  let params :=
    (append_if "start_date" startDate ++ append_if "end_date" endDate)%list in
  let* response := fetch {| method := "GET";
                       path := DASHBOARD_API_URL ++ "/stats";
                       query := params;
                       headers := [bearer token];
                       body := None |} in
  handleAuthenticatedResponse response.

(** [deleteActivity] (lines 243-254). *)
Definition deleteActivity (id : Z) : Api (option json) :=
  let* token := getAuthToken in
  let* response := fetch {| method := "DELETE";
                       path := DASHBOARD_API_URL ++ "/activities/" ++ decimal id;
                       query := [];
                       headers := [bearer token];
                       body := None |} in
  handleAuthenticatedResponse response.

(** The five authenticated calls of the dashboard, by name. *)
Inductive call : Type :=
| CreateActivity (data : ActivityCreateData)
| GetActivities (limit offset : option Z)
| GetActivity (id : Z)
| GetActivityStats (startDate endDate : option string)
| DeleteActivity (id : Z).

Definition perform (c : call) : Api (option json) :=
  match c with
  | CreateActivity data => createActivity data
  | GetActivities limit offset => getActivities limit offset
  | GetActivity id => getActivity id
  | GetActivityStats startDate endDate => getActivityStats startDate endDate
  | DeleteActivity id => deleteActivity id
  end.

(** *** The calls of the auth API (lines 49-109) *)

Definition API_BASE_URL : string := "/api/auth".

Record RegisterData : Type := {
  username : string;
  email : string;
  password : string
}.

Record LoginData : Type := {
  login_email : string;
  login_password : string
}.

Definition stringify_register (data : RegisterData) : json :=
  JObj [("username", JStr (username data));
        ("email", JStr (email data));
        ("password", JStr (password data))].

Definition stringify_login (data : LoginData) : json :=
  JObj [("email", JStr (login_email data));
        ("password", JStr (login_password data))].

(** [error.detail || fallback] as the message of [new Error(...)]. *)
Definition detail_or (detail : option json) (fallback : string) : string :=
  match detail with
  | Some d => if truthy detail then ToString d else fallback
  | None => fallback
  end.

(** [register] (lines 55-70).  Unlike the dashboard calls it reads no token,
    and the body of a failed response is parsed without a [catch]. *)
Definition register (data : RegisterData) : Api json :=
  let* response := fetch {| method := "POST";
                            path := API_BASE_URL ++ "/register";
                            query := [];
                            headers := [("Content-Type", "application/json")];
                            body := Some (stringify_register data) |} in
  if negb (ok response) then
    let* error := await (json_body response) in
    let* detail := await (get_prop error "detail") in
    throw (ErrorObj (detail_or detail "Registration failed"))
  else await (json_body response).

(** [login] (lines 75-90). *)
Definition login (data : LoginData) : Api json :=
  let* response := fetch {| method := "POST";
                            path := API_BASE_URL ++ "/login";
                            query := [];
                            headers := [("Content-Type", "application/json")];
                            body := Some (stringify_login data) |} in
  if negb (ok response) then
    let* error := await (json_body response) in
    let* detail := await (get_prop error "detail") in
    throw (ErrorObj (detail_or detail "Login failed"))
  else await (json_body response).

(** [getCurrentUser] (lines 95-109); [token] is the text the template
    literal of the header renders. *)
Definition getCurrentUser (token : string) : Api json :=
  let* response := fetch {| method := "GET";
                            path := API_BASE_URL ++ "/me";
                            query := [];
                            headers := [bearer token];
                            body := None |} in
  if negb (ok response) then
    let* error := await (json_body response) in
    let* detail := await (get_prop error "detail") in
    throw (ErrorObj (detail_or detail "Failed to get user info"))
  else await (json_body response).

(** The three calls of the auth API, by name. *)
Inductive auth_call : Type :=
| Register (data : RegisterData)
| Login (data : LoginData)
| GetCurrentUser (token : string).

Definition perform_auth (c : auth_call) : Api json :=
  match c with
  | Register data => register data
  | Login data => login data
  | GetCurrentUser token => getCurrentUser token
  end.

End Api.

(** ** [hooks/useDashboard.ts]: the pagination hook *)

Module UseDashboard.

Record ActivitiesState : Type := {
  data : list Activity;
  loading : bool;
  error : option string
}.

Record StatsState : Type := {
  stats_data : option ActivityStats;
  stats_loading : bool;
  stats_error : option string
}.

Record PaginationState : Type := {
  limit : Z;
  offset : Z;
  hasMore : bool
}.

Definition DEFAULT_LIMIT : Z := 10.

(** A call of the hook into [lib/api.ts], with the arguments it passes. *)
Inductive ApiCall : Type :=
| Call_getActivities (limit offset : Z)
| Call_getActivityStats (startDate endDate : option string)
| Call_createActivity (data : ActivityCreateData)
| Call_deleteActivity (id : Z).

(** The three [useState] cells, and the promises the hook is awaiting: each
    API call made and not yet settled, under the number it was issued
    with. *)
Record Hook : Type := {
  activitiesState : ActivitiesState;
  statsState : StatsState;
  pagination : PaginationState;
  inflight : list (nat * ApiCall);
  issued : nat
}.

(** The state of the first render (lines 63-81). *)
Definition initial : Hook := {|
  activitiesState := {| data := []; loading := true; error := None |};
  statsState := {| stats_data := None; stats_loading := true; stats_error := None |};
  pagination := {| limit := DEFAULT_LIMIT; offset := 0; hasMore := true |};
  inflight := [];
  issued := 0
|}.

(** The synchronous code of the hook: a state monad over [Hook]. *)
Definition M (A : Type) : Type := Hook -> A * Hook.

Definition ret {A} (a : A) : M A := fun h => (a, h).

Definition bind {A B} (m : M A) (k : A -> M B) : M B :=
  fun h => let '(a, h1) := m h in k a h1.

Notation "'let*' x ':=' m 'in' k" := (bind m (fun x => k))
  (at level 10, x name, m at level 200, k at level 200).
Notation "'do' m 'then' k" := (bind m (fun _ => k))
  (at level 10, m at level 200, k at level 200).

Definition read {A} (cell : Hook -> A) : M A := fun h => (cell h, h).

Definition setActivitiesState (f : ActivitiesState -> ActivitiesState) : M unit :=
  fun h => (tt, {| activitiesState := f (activitiesState h);
                   statsState := statsState h;
                   pagination := pagination h;
                   inflight := inflight h;
                   issued := issued h |}).

Definition setStatsState (f : StatsState -> StatsState) : M unit :=
  fun h => (tt, {| activitiesState := activitiesState h;
                   statsState := f (statsState h);
                   pagination := pagination h;
                   inflight := inflight h;
                   issued := issued h |}).

Definition setPagination (f : PaginationState -> PaginationState) : M unit :=
  fun h => (tt, {| activitiesState := activitiesState h;
                   statsState := statsState h;
                   pagination := f (pagination h);
                   inflight := inflight h;
                   issued := issued h |}).

(** Calling an API function: the promise it returns joins the awaited
    ones. *)
Definition call (c : ApiCall) : M unit :=
  fun h => (tt, {| activitiesState := activitiesState h;
                   statsState := statsState h;
                   pagination := pagination h;
                   inflight := (inflight h ++ [(issued h, c)])%list;
                   issued := S (issued h) |}).

(** [err instanceof Error ? err.message : fallback]. *)
Definition errorMessage (err : thrown) (fallback : string) : string :=
  match err with
  | ErrorObj message => message
  | NotAnError => fallback
  end.

(** [fetchActivities] (lines 84-110), up to its [await]. *)
Definition fetchActivities (limit offset : option Z) : M unit :=
  let limit := default DEFAULT_LIMIT limit in
  let offset := default 0 offset in
  do setActivitiesState (fun prev =>
       {| data := data prev; loading := true; error := None |}) then
  call (Call_getActivities limit offset).

(** [fetchActivities] from the point where [getActivities(limit, offset)]
    settles: the rest of the [try] block, or the [catch]. *)
Definition fetchActivities_resume (limit offset : Z)
    (settled : thrown + list Activity) : M unit :=
  match settled with
  | inr page =>
      do setActivitiesState (fun prev =>
           {| data := if offset =? 0 then page else (data prev ++ page)%list;
              loading := false;
              error := None |}) then
      setPagination (fun _ =>
        {| limit := limit;
           offset := offset;
           hasMore := Z.of_nat (length page) =? limit |})
  | inl err =>
      let errorMessage :=
        errorMessage err "Failed to fetch activities. Please try again." in
      setActivitiesState (fun prev =>
        {| data := data prev; loading := false; error := Some errorMessage |})
  end.

(** [fetchStats] (lines 113-132), up to its [await]. *)
Definition fetchStats (startDate endDate : option string) : M unit :=
  do setStatsState (fun prev =>
       {| stats_data := stats_data prev;
          stats_loading := true;
          stats_error := None |}) then
  call (Call_getActivityStats startDate endDate).

Definition fetchStats_resume (settled : thrown + ActivityStats) : M unit :=
  match settled with
  | inr stats =>
      setStatsState (fun _ =>
        {| stats_data := Some stats; stats_loading := false; stats_error := None |})
  | inl err =>
      let errorMessage :=
        errorMessage err "Failed to fetch statistics. Please try again." in
      setStatsState (fun prev =>
        {| stats_data := stats_data prev;
           stats_loading := false;
           stats_error := Some errorMessage |})
  end.

(** [createActivity] (lines 135-158), up to its [await]. *)
Definition createActivity (new : ActivityCreateData) : M unit :=
  call (Call_createActivity new).

(** The rest of [createActivity]; the value is what its promise resolves
    to, [None] being [null]. *)
Definition createActivity_resume (settled : thrown + Activity) : M (option Activity) :=
  match settled with
  | inr newActivity =>
      do setActivitiesState (fun prev =>
           {| data := newActivity :: data prev;
              loading := loading prev;
              error := error prev |}) then
      do fetchStats None None then
      ret (Some newActivity)
  | inl err =>
      let errorMessage :=
        errorMessage err "Failed to create activity. Please try again." in
      do setActivitiesState (fun prev =>
           {| data := data prev; loading := loading prev; error := Some errorMessage |}) then
      ret None
  end.

(** [deleteActivity] (lines 161-184), up to its [await]. *)
Definition deleteActivity (id : Z) : M unit :=
  call (Call_deleteActivity id).

(** The rest of [deleteActivity]; the value is what its promise resolves
    to. *)
Definition deleteActivity_resume (id : Z) (settled : thrown + unit) : M bool :=
  match settled with
  | inr _ =>
      do setActivitiesState (fun prev =>
           {| data := List.filter (fun activity => negb (Data.id activity =? id)) (data prev);
              loading := loading prev;
              error := error prev |}) then
      do fetchStats None None then
      ret true
  | inl err =>
      let errorMessage :=
        errorMessage err "Failed to delete activity. Please try again." in
      do setActivitiesState (fun prev =>
           {| data := data prev; loading := loading prev; error := Some errorMessage |}) then
      ret false
  end.

(** [refreshData] (lines 187-190), up to its [await]: both callees run to
    their own [await] while the array given to [Promise.all] is built, and
    nothing follows the [await]. *)
Definition refreshData : M unit :=
  let* pagination := read pagination in
  do setPagination (fun prev =>
       {| limit := limit prev; offset := 0; hasMore := hasMore prev |}) then
  do fetchActivities (Some (limit pagination)) (Some 0) then
  fetchStats None None.

(** [loadMore] (lines 193-198), up to its [await]; nothing follows it. *)
Definition loadMore : M unit :=
  let* pagination := read pagination in
  let* activitiesState := read activitiesState in
  if negb (hasMore pagination) || loading activitiesState then ret tt
  else
    let newOffset := offset pagination + limit pagination in
    fetchActivities (Some (limit pagination)) (Some newOffset).

(** The effect run on mount (lines 201-204). *)
Definition mount : M unit :=
  do fetchActivities None None then
  fetchStats None None.

(** *** The hook as a transition system *)

(** What an API promise is fulfilled with. *)
Inductive payload : Type :=
| Activities (page : list Activity)
| Stats (stats : ActivityStats)
| Created (newActivity : Activity)
| Void.

(** What can happen to a mounted hook: the effect runs, a caller invokes one
    of the returned functions, or an awaited API promise settles. *)
Inductive event : Type :=
| Mount
| FetchActivities (limit offset : option Z)
| FetchStats (startDate endDate : option string)
| CreateActivity (new : ActivityCreateData)
| DeleteActivity (id : Z)
| RefreshData
| LoadMore
| Settle (rid : nat) (settled : thrown + payload).

Fixpoint awaited (rid : nat) (l : list (nat * ApiCall)) : option ApiCall :=
  match l with
  | [] => None
  | (n, c) :: rest => if Nat.eqb n rid then Some c else awaited rid rest
  end.

Fixpoint forget (rid : nat) (l : list (nat * ApiCall)) : list (nat * ApiCall) :=
  match l with
  | [] => []
  | (n, c) :: rest => if Nat.eqb n rid then rest else (n, c) :: forget rid rest
  end.

Definition settle_promise (rid : nat) : M unit :=
  fun h => (tt, {| activitiesState := activitiesState h;
                   statsState := statsState h;
                   pagination := pagination h;
                   inflight := forget rid (inflight h);
                   issued := issued h |}).

Definition discard {A} (m : M A) : M unit := do m then ret tt.

(** The continuation that waits for call [c], when the promise settles the
    way its type allows. *)
Definition resume (c : ApiCall) (settled : thrown + payload) : option (M unit) :=
  match c, settled with
  | Call_getActivities limit offset, inl err =>
      Some (fetchActivities_resume limit offset (inl err))
  | Call_getActivities limit offset, inr (Activities page) =>
      Some (fetchActivities_resume limit offset (inr page))
  | Call_getActivityStats _ _, inl err => Some (fetchStats_resume (inl err))
  | Call_getActivityStats _ _, inr (Stats stats) => Some (fetchStats_resume (inr stats))
  | Call_createActivity _, inl err => Some (discard (createActivity_resume (inl err)))
  | Call_createActivity _, inr (Created a) =>
      Some (discard (createActivity_resume (inr a)))
  | Call_deleteActivity id, inl err => Some (discard (deleteActivity_resume id (inl err)))
  | Call_deleteActivity id, inr Void => Some (discard (deleteActivity_resume id (inr tt)))
  | _, _ => None
  end.

(** One event; [None] when [rid] names no awaited promise or the payload
    has the wrong type. *)
Definition step (h : Hook) (e : event) : option Hook :=
  match e with
  | Mount => Some (snd (mount h))
  | FetchActivities limit offset => Some (snd (fetchActivities limit offset h))
  | FetchStats startDate endDate => Some (snd (fetchStats startDate endDate h))
  | CreateActivity new => Some (snd (createActivity new h))
  | DeleteActivity id => Some (snd (deleteActivity id h))
  | RefreshData => Some (snd (refreshData h))
  | LoadMore => Some (snd (loadMore h))
  | Settle rid settled =>
      match awaited rid (inflight h) with
      | None => None
      | Some c =>
          match resume c settled with
          | None => None
          | Some k => Some (snd ((do settle_promise rid then k) h))
          end
      end
  end.

Fixpoint run (h : Hook) (es : list event) : option Hook :=
  match es with
  | [] => Some h
  | e :: rest =>
      match step h e with
      | Some h1 => run h1 rest
      | None => None
      end
  end.

(** An activities fetch is in flight. *)
Definition fetching (h : Hook) : bool :=
  existsb (fun p => match snd p with Call_getActivities _ _ => true | _ => false end)
    (inflight h).

(** Every awaited promise was issued under a number below the counter. *)
Definition wf (h : Hook) : bool :=
  forallb (fun p => (fst p <? issued h)%nat) (inflight h).

(** The state in which promise [rid] has left the awaited ones. *)
Definition settled_at (rid : nat) (h : Hook) : Hook := snd (settle_promise rid h).

(** The calls behind [createActivity] and [deleteActivity]. *)
Definition mutation (c : ApiCall) : bool :=
  match c with
  | Call_createActivity _ | Call_deleteActivity _ => true
  | _ => false
  end.

(** The events that belong to a create or a delete: the call of the returned
    function, and the settling of the promise it awaits. *)
Definition mutation_event (h : Hook) (e : event) : bool :=
  match e with
  | CreateActivity _ | DeleteActivity _ => true
  | Settle rid _ =>
      match awaited rid (inflight h) with
      | Some c => mutation c
      | None => false
      end
  | _ => false
  end.

(** A call of [fetchActivities] that leaves the page size to the default. *)
Definition omits_limit (e : event) : bool :=
  match e with
  | FetchActivities (Some _) _ => false
  | _ => true
  end.

(** An awaited call that is not a page fetch, or a page fetch of size [n]. *)
Definition page_size_is (n : Z) (p : nat * ApiCall) : bool :=
  match snd p with
  | Call_getActivities limit _ => limit =? n
  | _ => true
  end.

(** The cursor and every awaited page fetch use the default page size. *)
Definition default_sized (h : Hook) : bool :=
  (limit (pagination h) =? DEFAULT_LIMIT) &&
  forallb (page_size_is DEFAULT_LIMIT) (inflight h).

(** [isLoading] (line 207). *)
Definition isLoading (h : Hook) : bool :=
  loading (activitiesState h) || stats_loading (statsState h).

(** A stats fetch is in flight. *)
Definition stats_fetching (h : Hook) : bool :=
  existsb (fun p => match snd p with Call_getActivityStats _ _ => true | _ => false end)
    (inflight h).

(** The way the dashboard page uses the hook: [fetchActivities] is only ever
    called without arguments (by the mount effect). *)
Definition uses_defaults (e : event) : bool :=
  match e with
  | FetchActivities None None => true
  | FetchActivities _ _ => false
  | _ => true
  end.

(** A page fetch of [DEFAULT_LIMIT] records at a non-negative multiple of
    [DEFAULT_LIMIT], or a call that is not a page fetch. *)
Definition aligned_call (p : nat * ApiCall) : bool :=
  match snd p with
  | Call_getActivities limit offset =>
      (limit =? DEFAULT_LIMIT) && (0 <=? offset) && (offset mod DEFAULT_LIMIT =? 0)
  | _ => true
  end.

Definition aligned (h : Hook) : bool :=
  (limit (pagination h) =? DEFAULT_LIMIT) &&
  (0 <=? offset (pagination h)) &&
  (offset (pagination h) mod DEFAULT_LIMIT =? 0) &&
  forallb aligned_call (inflight h).

(** The events that can write the [error] field of the activities state:
    the start and the settling of a page fetch, and the rejection of a
    create or delete. *)
Definition writes_error (h : Hook) (e : event) : bool :=
  match e with
  | Mount | FetchActivities _ _ | RefreshData => true
  | LoadMore => hasMore (pagination h) && negb (loading (activitiesState h))
  | Settle rid settled =>
      match awaited rid (inflight h), settled with
      | Some (Call_getActivities _ _), _ => true
      | Some (Call_createActivity _), inl _ => true
      | Some (Call_deleteActivity _), inl _ => true
      | _, _ => false
      end
  | _ => false
  end.

(** Each loading flag that is set has a request of its kind in flight. *)
Definition flags_sound (h : Hook) : bool :=
  implb (loading (activitiesState h)) (fetching h) &&
  implb (stats_loading (statsState h)) (stats_fetching h).

End UseDashboard.


(** ** [components/dashboard/ActivityList.tsx]: what the list renders *)

Module ActivityList.

(** The three shapes of the rendered list (lines 69-216): the empty state,
    or the rows followed by the loading skeleton and by the Load More
    button, each present or not. *)
Inductive View : Type :=
| EmptyState
| Listing (rows : list Activity) (skeleton loadMoreButton : bool).

Definition render (activities : list Activity) (hasMore loading : bool) : View :=
  if negb loading && (Z.of_nat (length activities) =? 0) then EmptyState
  else Listing activities loading (hasMore && negb loading).

(** The props the dashboard page passes from the hook. *)
Definition of_hook (h : UseDashboard.Hook) : View :=
  render (UseDashboard.data (UseDashboard.activitiesState h))
         (UseDashboard.hasMore (UseDashboard.pagination h))
         (UseDashboard.loading (UseDashboard.activitiesState h)).

End ActivityList.

(** ** [contexts/AuthContext.tsx] and [components/ProtectedRoute.tsx] *)

Module AuthContext.

(** The three [useState] cells of [AuthProvider].  [JNull] is [null]; the
    token cell can also hold [undefined], which is [None]. *)
Record AuthState : Type := {
  user : json;
  token : option json;
  loading : bool
}.

Definition initial : AuthState := {|
  user := JNull;
  token := Some JNull;
  loading := true
|}.

(** A computation of the provider: an [Api] computation that also updates
    the cells.  Each function below is run to its end, without another
    event of the provider in between. *)
Definition Auth (A : Type) : Type :=
  (Api.Request -> thrown + Api.Response) ->
  AuthState * Api.Env -> AuthState * Api.Env * list Api.Request * (thrown + A).

Definition ret {A} (a : A) : Auth A := fun _ w => (w, [], inr a).

Definition bind {A B} (m : Auth A) (k : A -> Auth B) : Auth B :=
  fun net w =>
    match m net w with
    | (w1, sent1, inl e) => (w1, sent1, inl e)
    | (w1, sent1, inr a) =>
        match k a net w1 with
        | (w2, sent2, r) => (w2, (sent1 ++ sent2)%list, r)
        end
    end.

Notation "'let*' x ':=' m 'in' k" := (bind m (fun x => k))
  (at level 10, x name, m at level 200, k at level 200).
Notation "'do' m 'then' k" := (bind m (fun _ => k))
  (at level 10, m at level 200, k at level 200).

Definition lift {A} (m : Api.Api A) : Auth A :=
  fun net w =>
    match m net (snd w) with
    | (env1, sent, r) => ((fst w, env1), sent, r)
    end.

(** [p.then(...).catch(...)]: the promise settled, as a value. *)
Definition settled {A} (m : Auth A) : Auth (thrown + A) :=
  fun net w =>
    match m net w with
    | (w1, sent, r) => (w1, sent, inr r)
    end.

Definition setUser (u : json) : Auth unit :=
  fun _ w => (({| user := u; token := token (fst w); loading := loading (fst w) |},
               snd w), [], inr tt).

Definition setToken (t : option json) : Auth unit :=
  fun _ w => (({| user := user (fst w); token := t; loading := loading (fst w) |},
               snd w), [], inr tt).

Definition setLoading (b : bool) : Auth unit :=
  fun _ w => (({| user := user (fst w); token := token (fst w); loading := b |},
               snd w), [], inr tt).

(** The text a template literal or [localStorage.setItem] makes of a
    value. *)
Definition template (v : option json) : string :=
  match v with
  | None => "undefined"
  | Some j => ToString j
  end.

Definition setItem (key : string) (value : option json) : Api.Api unit :=
  fun _ env =>
    ({| Api.localStorage := <[ key := template value ]> (Api.localStorage env);
        Api.location_href := Api.location_href env |}, [], inr tt).

(** The effect run on mount (lines 32-48). *)
Definition init : Auth unit :=
  let* storedToken := lift (Api.getItem "token") in
  match storedToken with
  | None => setLoading false
  | Some t =>
      if String.eqb t "" then setLoading false
      else
        do setToken (Some (JStr t)) then
        let* outcome := settled (lift (Api.getCurrentUser t)) in
        do match outcome with
           | inr userData => setUser userData
           | inl _ =>
               do lift (Api.removeItem "token") then
               setToken (Some JNull)
           end then
        setLoading false
  end.

(** [register] (lines 51-62). *)
Definition register (username email password : string) : Auth unit :=
  let* response := lift (Api.register {| Api.username := username;
                                         Api.email := email;
                                         Api.password := password |}) in
  let* newToken := lift (Api.await (get_prop response "access_token")) in
  do lift (setItem "token" newToken) then
  do setToken newToken then
  let* userData := lift (Api.getCurrentUser (template newToken)) in
  setUser userData.

(** [login] (lines 65-76). *)
Definition login (email password : string) : Auth unit :=
  let* response := lift (Api.login {| Api.login_email := email;
                                      Api.login_password := password |}) in
  let* newToken := lift (Api.await (get_prop response "access_token")) in
  do lift (setItem "token" newToken) then
  do setToken newToken then
  let* userData := lift (Api.getCurrentUser (template newToken)) in
  setUser userData.

(** [logout] (lines 79-83). *)
Definition logout : Auth unit :=
  do lift (Api.removeItem "token") then
  do setToken (Some JNull) then
  setUser JNull.

(** [ProtectedRoute]: what it renders, and where its effect sends the
    router. *)
Inductive Routed : Type :=
| Spinner
| Nothing
| Children.

Definition ProtectedRoute (st : AuthState) : Routed :=
  if loading st then Spinner
  else if negb (truthy (Some (user st))) then Nothing
  else Children.

Definition ProtectedRoute_effect (st : AuthState) : option string :=
  if negb (loading st) && negb (truthy (Some (user st))) then Some "/login"
  else None.

End AuthContext.

(** ** Concrete records and traces used in the examples *)

Module Fixtures.

Import UseDashboard.

Definition sample (i : Z) : Activity := {|
  id := i;
  user_id := 1;
  action_type := "login";
  description := None;
  extra_data := None;
  created_at := "2024-01-01T00:00:00"
|}.

(** [n] records with identifiers [first], [first + 1], ... *)
Definition page_from (first : Z) (n : nat) : list Activity :=
  List.map (fun k => sample (first + Z.of_nat k)) (seq 0 n).

Definition login_data : ActivityCreateData := {|
  new_action_type := "login";
  new_description := Some "signed in";
  new_extra_data := None
|}.

(** A browser holding a token. *)
Definition signed_in : Api.Env := {|
  Api.localStorage := {[ "token" := "abc" ]};
  Api.location_href := "/dashboard"
|}.

(** A backend that answers every request with 401. *)
Definition expired (_ : Api.Request) : thrown + Api.Response :=
  inr {| Api.status := 401;
         Api.ok := false;
         Api.json_body := inr (JObj [("detail", JStr "Could not validate credentials")]) |}.

(** A refresh is requested while the fetch of the mount effect is still
    awaited; then that first fetch is fulfilled with a full page. *)
Definition overlapping_refresh : list event :=
  [Mount; RefreshData; Settle 0 (inr (Activities (page_from 1 10)))].

(** A caller asks for a page of size 0 and gets it, then creates a record. *)
Definition zero_limit : list event :=
  [Mount;
   Settle 0 (inr (Activities (page_from 1 10)));
   FetchActivities (Some 0) None;
   Settle 2 (inr (Activities []));
   CreateActivity login_data;
   Settle 3 (inr (Created (sample 11)))].

(** The state [overlapping_refresh] leads to: the list is not loading, and
    the page fetch of the refresh is still awaited under number 2. *)
Definition overlap_state : Hook := {|
  activitiesState := {| data := page_from 1 10; loading := false; error := None |};
  statsState := {| stats_data := None; stats_loading := true; stats_error := None |};
  pagination := {| limit := 10; offset := 0; hasMore := true |};
  inflight := [(1%nat, Call_getActivityStats None None);
               (2%nat, Call_getActivities 10 0);
               (3%nat, Call_getActivityStats None None)];
  issued := 4
|}.

(** The state [zero_limit] leads to: one record held, cursor at limit 0 and
    offset 0, no page fetch awaited. *)
Definition zero_state : Hook := {|
  activitiesState := {| data := [sample 11]; loading := false; error := None |};
  statsState := {| stats_data := None; stats_loading := true; stats_error := None |};
  pagination := {| limit := 0; offset := 0; hasMore := true |};
  inflight := [(1%nat, Call_getActivityStats None None);
               (4%nat, Call_getActivityStats None None)];
  issued := 5
|}.

(** A browser without a token. *)
Definition signed_out : Api.Env := {|
  Api.localStorage := ∅;
  Api.location_href := "/dashboard"
|}.

(** A backend that gives every request the same answer. *)
Definition answer (response : Api.Response) (_ : Api.Request) : thrown + Api.Response :=
  inr response.

(** A network that is down. *)
Definition offline (_ : Api.Request) : thrown + Api.Response :=
  inl (ErrorObj "Failed to fetch").

Definition no_content : Api.Response := {|
  Api.status := 204;
  Api.ok := true;
  Api.json_body := inl (ErrorObj "Unexpected end of JSON input")
|}.

Definition not_found : Api.Response := {|
  Api.status := 404;
  Api.ok := false;
  Api.json_body := inr (JObj [("detail", JStr "Activity not found")])
|}.

Definition bad_gateway : Api.Response := {|
  Api.status := 502;
  Api.ok := false;
  Api.json_body := inl (ErrorObj "Unexpected token < in JSON at position 0")
|}.

Definition wrong_password : Api.Response := {|
  Api.status := 401;
  Api.ok := false;
  Api.json_body := inr (JObj [("detail", JStr "Incorrect email or password")])
|}.

Definition token_issued : Api.Response := {|
  Api.status := 200;
  Api.ok := true;
  Api.json_body := inr (JObj [("access_token", JStr "abc"); ("token_type", JStr "bearer")])
|}.

Definition ann : json :=
  JObj [("id", JNum 1); ("username", JStr "ann"); ("email", JStr "ann@example.org");
        ("created_at", JStr "2024-01-01T00:00:00")].

Definition me_ann : Api.Response := {|
  Api.status := 200;
  Api.ok := true;
  Api.json_body := inr ann
|}.

(** A backend that accepts every login and knows the user of every token. *)
Definition auth_backend (req : Api.Request) : thrown + Api.Response :=
  if String.eqb (Api.path req) "/api/auth/login" then inr token_issued
  else if String.eqb (Api.path req) "/api/auth/me" then inr me_ann
  else inr not_found.

(** A backend that registers every user but fails on every other request. *)
Definition signup_only (req : Api.Request) : thrown + Api.Response :=
  if String.eqb (Api.path req) "/api/auth/register" then inr token_issued
  else inr bad_gateway.

(** The first page has arrived in full, then [loadMore] brought a short
    second page; the stats of the mount effect are still awaited. *)
Definition two_pages : list event :=
  [Mount;
   Settle 0 (inr (Activities (page_from 1 10)));
   LoadMore;
   Settle 2 (inr (Activities (page_from 11 3)))].

(** The state [two_pages] leads to: thirteen records held, the cursor at
    offset 10 with [hasMore] false. *)
Definition two_pages_state : Hook := {|
  activitiesState :=
    {| data := (page_from 1 10 ++ page_from 11 3)%list; loading := false; error := None |};
  statsState := {| stats_data := None; stats_loading := true; stats_error := None |};
  pagination := {| limit := 10; offset := 10; hasMore := false |};
  inflight := [(1%nat, Call_getActivityStats None None)];
  issued := 3
|}.

Definition thirteen_logins : ActivityStats := {|
  total_count := 13;
  by_type := [("login", 13)];
  by_date := [("2024-01-01", 13)];
  most_common_action := Some "login"
|}.

End Fixtures.


(** * Properties *)

Import UseDashboard.

(** ** The awaited promises *)

Section Awaited.

Implicit Types (l : list (nat * ApiCall)) (c : ApiCall) (rid : nat).

Lemma awaited_In rid l c : awaited rid l = Some c -> In (rid, c) l.
Proof.
  induction l as [| [n c'] rest IH]; simpl; [discriminate |].
  destruct (Nat.eqb_spec n rid) as [-> | _].
  - intros [= ->]. now left.
  - intros H. right. now apply IH.
Qed.

Lemma awaited_app_fresh rid l c :
  Forall (fun p => (fst p < rid)%nat) l -> awaited rid (l ++ [(rid, c)]) = Some c.
Proof.
  induction 1 as [| [n c'] rest Hn _ IH]; simpl.
  - now rewrite Nat.eqb_refl.
  - simpl in Hn. destruct (Nat.eqb_spec n rid); [lia | exact IH].
Qed.

Lemma awaited_app_old rid l c n :
  (rid < n)%nat -> awaited rid (l ++ [(n, c)]) = awaited rid l.
Proof.
  intros Hlt. induction l as [| [m c'] rest IH]; simpl.
  - destruct (Nat.eqb_spec n rid); [lia | reflexivity].
  - destruct (Nat.eqb m rid); [reflexivity | exact IH].
Qed.

Lemma forget_app_fresh rid l c :
  Forall (fun p => (fst p < rid)%nat) l -> forget rid (l ++ [(rid, c)]) = l.
Proof.
  induction 1 as [| [n c'] rest Hn _ IH]; simpl.
  - now rewrite Nat.eqb_refl.
  - simpl in Hn. destruct (Nat.eqb_spec n rid); [lia | now rewrite IH].
Qed.

Lemma Forall_forget (P : nat * ApiCall -> Prop) rid l :
  Forall P l -> Forall P (forget rid l).
Proof.
  induction 1 as [| [n c] rest Hp Hrest IH]; simpl; [constructor |].
  destruct (Nat.eqb n rid); [exact Hrest | now constructor].
Qed.

End Awaited.

Lemma wf_spec (h : Hook) :
  wf h = true <-> Forall (fun p => (fst p < issued h)%nat) (inflight h).
Proof.
  unfold wf. rewrite List.forallb_forall, List.Forall_forall.
  split; intros H p Hp; specialize (H p Hp); now apply Nat.ltb_lt.
Qed.

Lemma wf_issue (h h1 : Hook) (c : ApiCall) :
  inflight h1 = (inflight h ++ [(issued h, c)])%list ->
  issued h1 = S (issued h) ->
  wf h = true -> wf h1 = true.
Proof.
  rewrite !wf_spec. intros -> -> H. apply Forall_app. split.
  - eapply Forall_impl; [exact H |]. simpl. intros; lia.
  - constructor; [simpl; lia | constructor].
Qed.

Lemma wf_same_promises (h h1 : Hook) :
  inflight h1 = inflight h -> issued h1 = issued h -> wf h = true -> wf h1 = true.
Proof. unfold wf. intros -> ->. auto. Qed.

Lemma wf_call (h : Hook) (c : ApiCall) : wf h = true -> wf (snd (call c h)) = true.
Proof. apply (wf_issue h _ c); reflexivity. Qed.

Lemma wf_fetchActivities (h : Hook) limit offset :
  wf h = true -> wf (snd (fetchActivities limit offset h)) = true.
Proof. eapply wf_issue; reflexivity. Qed.

Lemma wf_fetchStats (h : Hook) startDate endDate :
  wf h = true -> wf (snd (fetchStats startDate endDate h)) = true.
Proof. eapply wf_issue; reflexivity. Qed.

Lemma wf_settled_at (h : Hook) rid : wf h = true -> wf (settled_at rid h) = true.
Proof. rewrite !wf_spec. unfold settled_at. simpl. apply Forall_forget. Qed.

Lemma wf_resume (h : Hook) (c : ApiCall) (s : thrown + payload) (k : M unit) :
  resume c s = Some k -> wf h = true -> wf (snd (k h)) = true.
Proof.
  intros Hr H.
  destruct c as [l o | sd ed | d | i], s as [err | [page | stats | a | ]];
    simpl in Hr; try discriminate; injection Hr as <-;
    try (eapply wf_same_promises; [| | exact H]; reflexivity).
  - eapply wf_issue; [| | exact H]; reflexivity.
  - eapply wf_issue; [| | exact H]; reflexivity.
Qed.

(** Every event keeps the numbering of the awaited promises sound. *)
Lemma wf_step (h h1 : Hook) (e : event) :
  wf h = true -> step h e = Some h1 -> wf h1 = true.
Proof.
  intros H. destruct e; cbn [step].
  - intros [= <-].
    apply (wf_fetchStats (snd (fetchActivities None None h))), wf_fetchActivities, H.
  - intros [= <-]. apply wf_fetchActivities, H.
  - intros [= <-]. apply wf_fetchStats, H.
  - intros [= <-]. apply wf_call, H.
  - intros [= <-]. apply wf_call, H.
  - intros [= <-].
    change (wf (snd (fetchStats None None
                  (snd (fetchActivities (Some (limit (pagination h))) (Some 0)
                     (snd (setPagination
                             (fun prev => {| limit := limit prev;
                                             offset := 0;
                                             hasMore := hasMore prev |}) h)))))) = true).
    apply wf_fetchStats, wf_fetchActivities.
    eapply wf_same_promises; [| | exact H]; reflexivity.
  - intros [= <-]. unfold loadMore, bind, read.
    destruct (negb _ || _); [exact H | apply wf_fetchActivities, H].
  - destruct (awaited rid (inflight h)) as [c |]; [| discriminate].
    destruct (resume c settled) as [k |] eqn:Hr; [| discriminate].
    intros [= <-]. apply (wf_resume _ _ _ _ Hr), wf_settled_at, H.
Qed.

Lemma wf_run (es : list event) :
  forall h h1, wf h = true -> run h es = Some h1 -> wf h1 = true.
Proof.
  induction es as [| e rest IH]; simpl; intros h h1 H.
  - intros [= <-]. exact H.
  - destruct (step h e) as [h2 |] eqn:Hs; [| discriminate].
    apply IH. eapply wf_step; eauto.
Qed.

(** Every state the mounted hook can reach numbers its promises soundly. *)
Lemma wf_reachable (es : list event) (h : Hook) :
  run initial es = Some h -> wf h = true.
Proof. apply wf_run. reflexivity. Qed.

(** ** Fetching a page *)

(** [fetchActivities] marks the list as loading, clears the error, and awaits
    [getActivities] with the defaults filled in; the list and the pagination
    cursor are untouched. *)
Lemma fetchActivities_call (h : Hook) (limit offset : option Z) :
  fetchActivities limit offset h =
  (tt, {| activitiesState :=
            {| data := data (activitiesState h); loading := true; error := None |};
          statsState := statsState h;
          pagination := pagination h;
          inflight :=
            (inflight h ++
             [(issued h,
               Call_getActivities (default DEFAULT_LIMIT limit) (default 0 offset))])%list;
          issued := S (issued h) |}).
Proof. reflexivity. Qed.

Lemma fetchActivities_awaited (h : Hook) (limit offset : option Z) :
  wf h = true ->
  awaited (issued h) (inflight (snd (fetchActivities limit offset h))) =
  Some (Call_getActivities (default DEFAULT_LIMIT limit) (default 0 offset)).
Proof.
  intros H. rewrite fetchActivities_call. simpl.
  now apply awaited_app_fresh, wf_spec.
Qed.

(** The state after an awaited page fetch is fulfilled. *)
Lemma settle_fetch_success (h : Hook) (rid : nat) (limit offset : Z) (page : list Activity) :
  awaited rid (inflight h) = Some (Call_getActivities limit offset) ->
  step h (Settle rid (inr (Activities page))) =
  Some {| activitiesState :=
            {| data := if offset =? 0 then page
                       else (data (activitiesState h) ++ page)%list;
               loading := false;
               error := None |};
          statsState := statsState h;
          pagination :=
            {| limit := limit; offset := offset;
               hasMore := Z.of_nat (length page) =? limit |};
          inflight := forget rid (inflight h);
          issued := issued h |}.
Proof. intros Ha. unfold step. rewrite Ha. reflexivity. Qed.

(** The state after an awaited page fetch is rejected. *)
Lemma settle_fetch_failure (h : Hook) (rid : nat) (limit offset : Z) (err : thrown) :
  awaited rid (inflight h) = Some (Call_getActivities limit offset) ->
  step h (Settle rid (inl err)) =
  Some {| activitiesState :=
            {| data := data (activitiesState h);
               loading := false;
               error := Some (errorMessage err
                                "Failed to fetch activities. Please try again.") |};
          statsState := statsState h;
          pagination := pagination h;
          inflight := forget rid (inflight h);
          issued := issued h |}.
Proof. intros Ha. unfold step. rewrite Ha. reflexivity. Qed.

(** C1. When an awaited [getActivities(limit, offset)] of the hook is
    fulfilled with a page, the [hasMore] flag becomes true exactly when the
    page holds [limit] records; a page shorter than [limit] makes it
    false. *)
Theorem hasMore_iff_full_page
    (h : Hook) (rid : nat) (limit offset : Z) (page : list Activity) :
  awaited rid (inflight h) = Some (Call_getActivities limit offset) ->
  exists h1,
    step h (Settle rid (inr (Activities page))) = Some h1 /\
    (hasMore (pagination h1) = true <-> Z.of_nat (length page) = limit) /\
    (Z.of_nat (length page) < limit -> hasMore (pagination h1) = false).
Proof.
  intros Ha. eexists. split; [apply (settle_fetch_success _ _ _ _ _ Ha) |].
  cbn [pagination hasMore]. split.
  - apply Z.eqb_eq.
  - intros Hlt. apply Z.eqb_neq. lia.
Qed.

Lemma hasMore_iff_full_page_witness :
  exists h1,
    step (snd (mount initial)) (Settle 0 (inr (Activities (Fixtures.page_from 1 3)))) = Some h1 /\
    (hasMore (pagination h1) = true <-> Z.of_nat (length (Fixtures.page_from 1 3)) = 10) /\
    (Z.of_nat (length (Fixtures.page_from 1 3)) < 10 -> hasMore (pagination h1) = false).
Proof.
  apply (hasMore_iff_full_page (snd (mount initial)) 0%nat 10 0).
  reflexivity.
Defined.

(** C3. When an awaited [getActivities(limit, offset)] is fulfilled, the
    accumulated list becomes the returned page if [offset] is 0, and the
    previous list followed by the page otherwise. *)
Theorem page_replaces_or_appends
    (h : Hook) (rid : nat) (limit offset : Z) (page : list Activity) :
  awaited rid (inflight h) = Some (Call_getActivities limit offset) ->
  exists h1,
    step h (Settle rid (inr (Activities page))) = Some h1 /\
    (offset = 0 -> data (activitiesState h1) = page) /\
    (offset <> 0 ->
     data (activitiesState h1) = (data (activitiesState h) ++ page)%list).
Proof.
  intros Ha. eexists. split; [apply (settle_fetch_success _ _ _ _ _ Ha) |].
  cbn [activitiesState data]. split.
  - intros ->. reflexivity.
  - intros Hne. apply Z.eqb_neq in Hne. now rewrite Hne.
Qed.

Lemma page_replaces_or_appends_witness :
  (exists h1,
     step Fixtures.overlap_state
       (Settle 2 (inr (Activities (Fixtures.page_from 21 3)))) = Some h1 /\
     data (activitiesState Fixtures.overlap_state) = Fixtures.page_from 1 10 /\
     data (activitiesState h1) = Fixtures.page_from 21 3) /\
  (exists h1,
     step (snd (loadMore Fixtures.overlap_state))
       (Settle 4 (inr (Activities (Fixtures.page_from 11 3)))) = Some h1 /\
     data (activitiesState h1) =
       (Fixtures.page_from 1 10 ++ Fixtures.page_from 11 3)%list).
Proof.
  split.
  - destruct (page_replaces_or_appends Fixtures.overlap_state 2%nat 10 0
                (Fixtures.page_from 21 3) eq_refl) as (h1 & Hstep & Hreplace & _).
    exists h1. split; [exact Hstep |]. split; [reflexivity | exact (Hreplace eq_refl)].
  - assert (Hne : 10 <> 0) by discriminate.
    destruct (page_replaces_or_appends (snd (loadMore Fixtures.overlap_state)) 4%nat 10 10
                (Fixtures.page_from 11 3) eq_refl) as (h1 & Hstep & _ & Happend).
    exists h1. split; [exact Hstep | exact (Happend Hne)].
Defined.

(** C9. A page fetch that is started in state [h] and then rejected leaves
    the accumulated list, the pagination cursor, the stats and the other
    awaited promises as they were in [h]; the loading flag ends false and
    the error holds the message. *)
Theorem failed_fetch_frame (h : Hook) (limit offset : option Z) (err : thrown) :
  wf h = true ->
  exists h1,
    step (snd (fetchActivities limit offset h)) (Settle (issued h) (inl err)) = Some h1 /\
    data (activitiesState h1) = data (activitiesState h) /\
    pagination h1 = pagination h /\
    statsState h1 = statsState h /\
    inflight h1 = inflight h /\
    loading (activitiesState h1) = false /\
    error (activitiesState h1) =
      Some (errorMessage err "Failed to fetch activities. Please try again.").
Proof.
  intros H. eexists. split.
  - apply settle_fetch_failure with (1 := fetchActivities_awaited h limit offset H).
  - cbn. repeat split. now apply forget_app_fresh, wf_spec.
Qed.

Lemma failed_fetch_frame_witness :
  run initial Fixtures.two_pages = Some Fixtures.two_pages_state /\
  wf Fixtures.two_pages_state = true /\
  exists h1,
    step (snd (fetchActivities None None Fixtures.two_pages_state))
      (Settle 3 (inl (ErrorObj "Failed to fetch"))) = Some h1 /\
    data (activitiesState h1) = (Fixtures.page_from 1 10 ++ Fixtures.page_from 11 3)%list /\
    pagination h1 = {| limit := 10; offset := 10; hasMore := false |} /\
    statsState h1 = statsState Fixtures.two_pages_state /\
    inflight h1 = [(1%nat, Call_getActivityStats None None)] /\
    loading (activitiesState h1) = false /\
    error (activitiesState h1) = Some "Failed to fetch".
Proof.
  split; [reflexivity |]. split; [reflexivity |].
  apply (failed_fetch_frame Fixtures.two_pages_state None None (ErrorObj "Failed to fetch")).
  reflexivity.
Defined.

(** ** Loading the next page *)

(** C2, as the code has it.  [loadMore] returns at once, leaving the whole
    state and the awaited promises as they are, when [hasMore] is false or
    the loading flag is set.  Otherwise it awaits
    [getActivities(limit, offset + limit)]; when that promise is fulfilled,
    in whatever state the hook then is, the page is appended to the
    accumulated list if [offset + limit] is not 0 and replaces it if it is,
    and [hasMore] is recomputed from the page length and [limit]. *)
Theorem loadMore_guard_and_request (h : Hook) :
  wf h = true ->
  let newOffset := offset (pagination h) + limit (pagination h) in
  let next := Call_getActivities (limit (pagination h)) newOffset in
  (hasMore (pagination h) = false \/ loading (activitiesState h) = true ->
   loadMore h = (tt, h)) /\
  (hasMore (pagination h) = true /\ loading (activitiesState h) = false ->
   exists h1,
     loadMore h = (tt, h1) /\
     inflight h1 = (inflight h ++ [(issued h, next)])%list /\
     awaited (issued h) (inflight h1) = Some next /\
     data (activitiesState h1) = data (activitiesState h) /\
     pagination h1 = pagination h /\
     forall (h2 : Hook) (page : list Activity),
       awaited (issued h) (inflight h2) = Some next ->
       exists h3,
         step h2 (Settle (issued h) (inr (Activities page))) = Some h3 /\
         data (activitiesState h3) =
           (if newOffset =? 0 then page
            else (data (activitiesState h2) ++ page)%list) /\
         hasMore (pagination h3) = (Z.of_nat (length page) =? limit (pagination h))).
Proof.
  intros Hwf newOffset next. split.
  - intros Hguard. unfold loadMore, bind, read.
    destruct Hguard as [-> | ->]; [reflexivity |].
    now rewrite orb_true_r.
  - intros [Hmore Hidle]. eexists. split.
    + unfold loadMore, bind, read. rewrite Hmore, Hidle. cbn [negb orb].
      apply fetchActivities_call.
    + cbn [inflight activitiesState data pagination default].
      split; [reflexivity |].
      split; [now apply awaited_app_fresh, wf_spec |].
      split; [reflexivity |].
      split; [reflexivity |].
      intros h2 page Ha. eexists.
      split; [apply (settle_fetch_success _ _ _ _ _ Ha) |].
      split; reflexivity.
Qed.

Lemma loadMore_guard_and_request_witness :
  wf Fixtures.overlap_state = true /\
  (hasMore (pagination Fixtures.overlap_state) = true /\
   loading (activitiesState Fixtures.overlap_state) = false) /\
  exists h1,
    loadMore Fixtures.overlap_state = (tt, h1) /\
    inflight h1 =
      (inflight Fixtures.overlap_state ++ [(4%nat, Call_getActivities 10 10)])%list.
Proof.
  split; [reflexivity |]. split; [split; reflexivity |].
  destruct (proj2 (loadMore_guard_and_request Fixtures.overlap_state eq_refl)
              (conj eq_refl eq_refl))
    as [h1 [Hrun [Hcalls _]]].
  exists h1. split; [exact Hrun | exact Hcalls].
Defined.

(** C2 as stated fails twice.  First, after [overlapping_refresh] a page
    fetch is still in flight, yet the loading flag is clear and [loadMore]
    issues another request.  Second, after [zero_limit] the next offset is
    0, and the page [loadMore] fetches replaces the accumulated list
    instead of being appended to it. *)
Lemma loadMore_claim_fails :
  (run initial Fixtures.overlapping_refresh = Some Fixtures.overlap_state /\
   fetching Fixtures.overlap_state = true /\
   hasMore (pagination Fixtures.overlap_state) = true /\
   loading (activitiesState Fixtures.overlap_state) = false /\
   inflight (snd (loadMore Fixtures.overlap_state)) =
     (inflight Fixtures.overlap_state ++ [(4%nat, Call_getActivities 10 10)])%list) /\
  (run initial Fixtures.zero_limit = Some Fixtures.zero_state /\
   hasMore (pagination Fixtures.zero_state) = true /\
   fetching Fixtures.zero_state = false /\
   exists h3,
     run Fixtures.zero_state [LoadMore; Settle 5 (inr (Activities []))] = Some h3 /\
     data (activitiesState h3) = [] /\
     (data (activitiesState Fixtures.zero_state) ++ [])%list <> data (activitiesState h3)).
Proof.
  split.
  - repeat split; reflexivity.
  - split; [reflexivity |]. split; [reflexivity |]. split; [reflexivity |].
    eexists. split; [reflexivity |]. split; [reflexivity |]. discriminate.
Qed.

(** ** Creating and deleting *)

Lemma createActivity_call (h : Hook) (new : ActivityCreateData) :
  createActivity new h =
  (tt, {| activitiesState := activitiesState h;
          statsState := statsState h;
          pagination := pagination h;
          inflight := (inflight h ++ [(issued h, Call_createActivity new)])%list;
          issued := S (issued h) |}).
Proof. reflexivity. Qed.

Lemma deleteActivity_call (h : Hook) (i : Z) :
  deleteActivity i h =
  (tt, {| activitiesState := activitiesState h;
          statsState := statsState h;
          pagination := pagination h;
          inflight := (inflight h ++ [(issued h, Call_deleteActivity i)])%list;
          issued := S (issued h) |}).
Proof. reflexivity. Qed.

(** The [catch] of either mutation: only the error message changes. *)
Lemma createActivity_catch (h : Hook) (err : thrown) :
  createActivity_resume (inl err) h =
  (None, {| activitiesState :=
              {| data := data (activitiesState h);
                 loading := loading (activitiesState h);
                 error := Some (errorMessage err
                                  "Failed to create activity. Please try again.") |};
            statsState := statsState h;
            pagination := pagination h;
            inflight := inflight h;
            issued := issued h |}).
Proof. reflexivity. Qed.

Lemma deleteActivity_catch (h : Hook) (i : Z) (err : thrown) :
  deleteActivity_resume i (inl err) h =
  (false, {| activitiesState :=
               {| data := data (activitiesState h);
                  loading := loading (activitiesState h);
                  error := Some (errorMessage err
                                   "Failed to delete activity. Please try again.") |};
             statsState := statsState h;
             pagination := pagination h;
             inflight := inflight h;
             issued := issued h |}).
Proof. reflexivity. Qed.

(** The [try] of either mutation after the API call succeeded. *)
Lemma createActivity_done (h : Hook) (a : Activity) :
  createActivity_resume (inr a) h =
  (Some a, {| activitiesState :=
                {| data := a :: data (activitiesState h);
                   loading := loading (activitiesState h);
                   error := error (activitiesState h) |};
              statsState :=
                {| stats_data := stats_data (statsState h);
                   stats_loading := true;
                   stats_error := None |};
              pagination := pagination h;
              inflight := (inflight h ++ [(issued h, Call_getActivityStats None None)])%list;
              issued := S (issued h) |}).
Proof. reflexivity. Qed.

Lemma deleteActivity_done (h : Hook) (i : Z) :
  deleteActivity_resume i (inr tt) h =
  (true, {| activitiesState :=
              {| data := List.filter (fun activity => negb (id activity =? i))
                           (data (activitiesState h));
                 loading := loading (activitiesState h);
                 error := error (activitiesState h) |};
            statsState :=
              {| stats_data := stats_data (statsState h);
                 stats_loading := true;
                 stats_error := None |};
            pagination := pagination h;
            inflight := (inflight h ++ [(issued h, Call_getActivityStats None None)])%list;
            issued := S (issued h) |}).
Proof. reflexivity. Qed.

(** C4. A create or delete that is attempted in state [h] and whose API call
    is rejected ends with the accumulated list of [h], an error message in
    the activities state, and no promise awaited beyond those of [h]: one
    call was made and none follows it.  The promise of [createActivity]
    resolves to [null], that of [deleteActivity] to [false]. *)
Theorem failed_mutation_keeps_list
    (h : Hook) (new : ActivityCreateData) (i : Z) (err : thrown) :
  wf h = true ->
  (exists h1,
     step (snd (createActivity new h)) (Settle (issued h) (inl err)) = Some h1 /\
     createActivity_resume (inl err)
       (settled_at (issued h) (snd (createActivity new h))) = (None, h1) /\
     data (activitiesState h1) = data (activitiesState h) /\
     error (activitiesState h1) =
       Some (errorMessage err "Failed to create activity. Please try again.") /\
     inflight h1 = inflight h /\
     issued h1 = S (issued h)) /\
  (exists h1,
     step (snd (deleteActivity i h)) (Settle (issued h) (inl err)) = Some h1 /\
     deleteActivity_resume i (inl err)
       (settled_at (issued h) (snd (deleteActivity i h))) = (false, h1) /\
     data (activitiesState h1) = data (activitiesState h) /\
     error (activitiesState h1) =
       Some (errorMessage err "Failed to delete activity. Please try again.") /\
     inflight h1 = inflight h /\
     issued h1 = S (issued h)).
Proof.
  intros H. apply wf_spec in H.
  assert (Hc : forall c, awaited (issued h) (inflight h ++ [(issued h, c)]) = Some c)
    by (intros c; now apply awaited_app_fresh).
  assert (Hf : forall c, forget (issued h) (inflight h ++ [(issued h, c)]) = inflight h)
    by (intros c; now apply forget_app_fresh).
  split; eexists.
  - split; [| split; [apply createActivity_catch |]].
    + unfold step. rewrite createActivity_call. cbn [snd inflight].
      rewrite Hc. reflexivity.
    + cbn. repeat split. apply Hf.
  - split; [| split; [apply deleteActivity_catch |]].
    + unfold step. rewrite deleteActivity_call. cbn [snd inflight].
      rewrite Hc. reflexivity.
    + cbn. repeat split. apply Hf.
Qed.

Lemma failed_mutation_keeps_list_witness :
  wf Fixtures.zero_state = true /\
  exists h1,
    step (snd (deleteActivity 11 Fixtures.zero_state))
      (Settle 5 (inl (ErrorObj "Activity not found"))) = Some h1 /\
    deleteActivity_resume 11 (inl (ErrorObj "Activity not found"))
      (settled_at 5 (snd (deleteActivity 11 Fixtures.zero_state))) = (false, h1) /\
    data (activitiesState h1) = [Fixtures.sample 11] /\
    error (activitiesState h1) = Some "Activity not found" /\
    inflight h1 = inflight Fixtures.zero_state /\
    issued h1 = 6%nat.
Proof.
  split; [reflexivity |].
  exact (proj2 (failed_mutation_keeps_list Fixtures.zero_state Fixtures.login_data 11
                  (ErrorObj "Activity not found") eq_refl)).
Defined.

Lemma filter_id_In (i : Z) (l : list Activity) (a : Activity) :
  In a (List.filter (fun activity => negb (id activity =? i)) l) <->
  In a l /\ id a <> i.
Proof.
  rewrite List.filter_In. split; intros [Hin Hne]; split; try exact Hin.
  - apply negb_true_iff, Z.eqb_neq in Hne. exact Hne.
  - apply negb_true_iff, Z.eqb_neq. exact Hne.
Qed.

(** C5. When the awaited API call of a create is fulfilled with the new
    record, the record is put in front of the accumulated list; when that of
    a delete of [i] is fulfilled, the list keeps, in order, exactly the
    entries whose id differs from [i].  In both cases [fetchStats()] is
    called: the stats are marked loading and [getActivityStats()] is
    awaited. *)
Theorem successful_mutation_updates_list (h : Hook) (rid : nat) (c : ApiCall) :
  wf h = true ->
  awaited rid (inflight h) = Some c ->
  let refetch := (issued h, Call_getActivityStats None None) in
  (forall new a, c = Call_createActivity new ->
     exists h1,
       step h (Settle rid (inr (Created a))) = Some h1 /\
       data (activitiesState h1) = a :: data (activitiesState h) /\
       inflight h1 = (forget rid (inflight h) ++ [refetch])%list /\
       awaited (issued h) (inflight h1) = Some (snd refetch) /\
       stats_loading (statsState h1) = true) /\
  (forall i, c = Call_deleteActivity i ->
     exists h1,
       step h (Settle rid (inr Void)) = Some h1 /\
       data (activitiesState h1) =
         List.filter (fun activity => negb (id activity =? i)) (data (activitiesState h)) /\
       (forall a, In a (data (activitiesState h1)) <->
                  In a (data (activitiesState h)) /\ id a <> i) /\
       inflight h1 = (forget rid (inflight h) ++ [refetch])%list /\
       awaited (issued h) (inflight h1) = Some (snd refetch) /\
       stats_loading (statsState h1) = true).
Proof.
  intros H Ha refetch.
  assert (Hfresh : awaited (issued h) (forget rid (inflight h) ++ [refetch]) =
                   Some (snd refetch)).
  { apply awaited_app_fresh, Forall_forget, wf_spec, H. }
  split.
  - intros new a ->. eexists. split.
    + unfold step. rewrite Ha. cbn [resume]. reflexivity.
    + cbn. repeat split. exact Hfresh.
  - intros i ->. eexists. split.
    + unfold step. rewrite Ha. cbn [resume]. reflexivity.
    + cbn. split; [reflexivity |]. split; [apply filter_id_In |].
      repeat split. exact Hfresh.
Qed.

Lemma successful_mutation_updates_list_witness :
  (exists h1,
     step (snd (createActivity Fixtures.login_data Fixtures.overlap_state))
       (Settle 4 (inr (Created (Fixtures.sample 11)))) = Some h1 /\
     data (activitiesState h1) = Fixtures.sample 11 :: Fixtures.page_from 1 10 /\
     awaited 5 (inflight h1) = Some (Call_getActivityStats None None) /\
     stats_loading (statsState h1) = true) /\
  (exists h1,
     step (snd (deleteActivity 5 Fixtures.overlap_state)) (Settle 4 (inr Void)) = Some h1 /\
     data (activitiesState h1) = (Fixtures.page_from 1 4 ++ Fixtures.page_from 6 5)%list /\
     awaited 5 (inflight h1) = Some (Call_getActivityStats None None) /\
     stats_loading (statsState h1) = true).
Proof.
  split.
  - destruct (proj1 (successful_mutation_updates_list
                       (snd (createActivity Fixtures.login_data Fixtures.overlap_state))
                       4%nat (Call_createActivity Fixtures.login_data) eq_refl eq_refl)
                Fixtures.login_data (Fixtures.sample 11) eq_refl)
      as (h1 & Hstep & Hdata & _ & Hstats & Hload).
    exists h1. repeat split; assumption.
  - destruct (proj2 (successful_mutation_updates_list
                       (snd (deleteActivity 5 Fixtures.overlap_state))
                       4%nat (Call_deleteActivity 5) eq_refl eq_refl) 5 eq_refl)
      as (h1 & Hstep & Hdata & _ & _ & Hstats & Hload).
    exists h1. split; [exact Hstep |]. split; [| split; assumption].
    rewrite Hdata. reflexivity.
Defined.

Lemma filter_length_lt {A} (f : A -> bool) (l : list A) (a : A) :
  In a l -> f a = false -> (length (List.filter f l) < length l)%nat.
Proof.
  induction l as [| b rest IH]; simpl; [tauto |].
  intros [-> | Hin] Hf.
  - rewrite Hf. pose proof (List.filter_length_le f rest). lia.
  - specialize (IH Hin Hf). destruct (f b); simpl; lia.
Qed.

Lemma filter_keeps_all {A} (f : A -> bool) (l : list A) :
  (forall a, In a l -> f a = true) -> List.filter f l = l.
Proof.
  induction l as [| b rest IH]; simpl; [reflexivity |].
  intros H. rewrite (H b) by now left. rewrite IH; [reflexivity |].
  intros a Ha. apply H. now right.
Qed.

(** C10, as the code has it.  No event of a create or a delete, whether the
    call of the returned function or the settling of its API promise with
    any outcome, changes the pagination cursor.  A fulfilled create makes
    the accumulated list one longer.  A fulfilled delete of [i] never makes
    it longer: it makes it shorter when the list holds an entry with id
    [i], and leaves the list as it is when it holds none. *)
Theorem mutations_keep_pagination (h h1 : Hook) (e : event) :
  mutation_event h e = true ->
  step h e = Some h1 ->
  pagination h1 = pagination h /\
  (forall rid a, e = Settle rid (inr (Created a)) ->
     length (data (activitiesState h1)) = S (length (data (activitiesState h)))) /\
  (forall rid i, e = Settle rid (inr Void) ->
     awaited rid (inflight h) = Some (Call_deleteActivity i) ->
     (length (data (activitiesState h1)) <= length (data (activitiesState h)))%nat /\
     (forall a, In a (data (activitiesState h)) -> id a = i ->
        (length (data (activitiesState h1)) < length (data (activitiesState h)))%nat) /\
     ((forall a, In a (data (activitiesState h)) -> id a <> i) ->
      data (activitiesState h1) = data (activitiesState h))).
Proof.
  destruct e as [| | | new | i | | | rid s]; cbn [mutation_event]; try discriminate.
  - intros _ [= <-]. repeat split; discriminate.
  - intros _ [= <-]. repeat split; discriminate.
  - unfold step. destruct (awaited rid (inflight h)) as [c |] eqn:Ha; [| discriminate].
    destruct c as [l o | sd ed | new | i]; cbn [mutation]; try discriminate; intros _.
    + destruct s as [err | [page | stats | a |]]; cbn [resume]; try discriminate;
        intros [= <-]; (split; [reflexivity |]); split.
      * intros ? ? [=].
      * intros ? ? [=].
      * intros ? ? _. reflexivity.
      * intros ? ? [=].
    + destruct s as [err | [page | stats | a |]]; cbn [resume]; try discriminate;
        intros [= <-]; (split; [reflexivity |]); split.
      * intros ? ? [=].
      * intros ? ? [=].
      * intros ? ? [=].
      * intros ? j [= <-] Hj. rewrite Ha in Hj. injection Hj as <-.
        cbn. split; [apply List.filter_length_le |]. split.
        -- intros a Hin Hid. apply (filter_length_lt _ _ a Hin).
           apply negb_false_iff, Z.eqb_eq, Hid.
        -- intros Habsent. apply filter_keeps_all.
           intros a Hin. apply negb_true_iff, Z.eqb_neq. now apply Habsent.
Qed.

Lemma mutations_keep_pagination_witness :
  (exists h1,
     step (snd (createActivity Fixtures.login_data Fixtures.two_pages_state))
       (Settle 3 (inr (Created (Fixtures.sample 14)))) = Some h1 /\
     pagination h1 = {| limit := 10; offset := 10; hasMore := false |} /\
     length (data (activitiesState h1)) = 14%nat) /\
  (exists h1,
     step (snd (deleteActivity 5 Fixtures.two_pages_state)) (Settle 3 (inr Void)) = Some h1 /\
     pagination h1 = {| limit := 10; offset := 10; hasMore := false |} /\
     (length (data (activitiesState h1)) < 13)%nat).
Proof.
  split.
  - eexists. split; [reflexivity |].
    destruct (mutations_keep_pagination
                (snd (createActivity Fixtures.login_data Fixtures.two_pages_state)) _
                (Settle 3 (inr (Created (Fixtures.sample 14)))) eq_refl eq_refl)
      as [Hp [Hlen _]].
    split; [exact Hp | exact (Hlen 3%nat (Fixtures.sample 14) eq_refl)].
  - eexists. split; [reflexivity |].
    destruct (mutations_keep_pagination
                (snd (deleteActivity 5 Fixtures.two_pages_state)) _
                (Settle 3 (inr Void)) eq_refl eq_refl)
      as [Hp [_ Hdel]].
    split; [exact Hp |].
    destruct (Hdel 3%nat 5 eq_refl eq_refl) as [_ [Hlt _]].
    apply (Hlt (Fixtures.sample 5)); [| reflexivity].
    cbn. do 4 right. left. reflexivity.
Defined.

(** C10 as stated fails in its remark on the list: a fulfilled delete of an
    id that no held entry has (here 99, with ids 1 to 13 held) changes
    neither the list nor its length, and the cursor stays as well. *)
Lemma successful_delete_may_keep_length :
  exists h1,
    step (snd (deleteActivity 99 Fixtures.two_pages_state)) (Settle 3 (inr Void)) = Some h1 /\
    data (activitiesState h1) = data (activitiesState Fixtures.two_pages_state) /\
    length (data (activitiesState h1)) = 13%nat /\
    pagination h1 = pagination Fixtures.two_pages_state.
Proof.
  eexists. split; [reflexivity |]. repeat split.
Qed.

(** ** Refreshing *)

Lemma refreshData_call (h : Hook) :
  refreshData h =
  (tt, {| activitiesState :=
            {| data := data (activitiesState h); loading := true; error := None |};
          statsState :=
            {| stats_data := stats_data (statsState h);
               stats_loading := true;
               stats_error := None |};
          pagination :=
            {| limit := limit (pagination h);
               offset := 0;
               hasMore := hasMore (pagination h) |};
          inflight :=
            ((inflight h ++ [(issued h, Call_getActivities (limit (pagination h)) 0)]) ++
             [(S (issued h), Call_getActivityStats None None)])%list;
          issued := S (S (issued h)) |}).
Proof. reflexivity. Qed.

Lemma forget_app_l (rid : nat) (l l' : list (nat * ApiCall)) (c : ApiCall) :
  awaited rid l = Some c -> forget rid (l ++ l') = (forget rid l ++ l')%list.
Proof.
  induction l as [| [n c'] rest IH]; simpl; [discriminate |].
  destruct (Nat.eqb n rid); [reflexivity |].
  intros Ha. simpl. now rewrite IH.
Qed.

(** C8. [refreshData] sets the offset of the cursor to 0 and, before it
    awaits anything, calls [getActivities(limit, 0)] with the current limit
    and [getActivityStats()]: in the state it leaves, both promises are
    awaited at once, and either of them can be the first to settle.  When
    both are fulfilled, in either order, the hook ends in the same state:
    the list is the page received, the cursor is at offset 0 with [hasMore]
    recomputed, the statistics are the ones received, both loading flags
    are clear, and no promise of the refresh is left. *)
Theorem refreshData_refetches_both (h : Hook) :
  wf h = true ->
  let page := Call_getActivities (limit (pagination h)) 0 in
  let stats := Call_getActivityStats None None in
  exists h1,
    refreshData h = (tt, h1) /\
    pagination h1 =
      {| limit := limit (pagination h); offset := 0; hasMore := hasMore (pagination h) |} /\
    inflight h1 = (inflight h ++ [(issued h, page); (S (issued h), stats)])%list /\
    awaited (issued h) (inflight h1) = Some page /\
    awaited (S (issued h)) (inflight h1) = Some stats /\
    (forall s, resume page s <> None -> step h1 (Settle (issued h) s) <> None) /\
    (forall s, resume stats s <> None -> step h1 (Settle (S (issued h)) s) <> None) /\
    forall (records : list Activity) (summary : ActivityStats),
      exists h3,
        run h1 [Settle (issued h) (inr (Activities records));
                Settle (S (issued h)) (inr (Stats summary))] = Some h3 /\
        run h1 [Settle (S (issued h)) (inr (Stats summary));
                Settle (issued h) (inr (Activities records))] = Some h3 /\
        activitiesState h3 = {| data := records; loading := false; error := None |} /\
        pagination h3 =
          {| limit := limit (pagination h);
             offset := 0;
             hasMore := Z.of_nat (length records) =? limit (pagination h) |} /\
        statsState h3 =
          {| stats_data := Some summary; stats_loading := false; stats_error := None |} /\
        inflight h3 = inflight h.
Proof.
  intros H page stats. apply wf_spec in H.
  set (first := (inflight h ++ [(issued h, page)])%list).
  assert (Hfirst : Forall (fun p => (fst p < S (issued h))%nat) first).
  { apply Forall_app. split.
    - eapply Forall_impl; [exact H |]. simpl. intros; lia.
    - constructor; [simpl; lia | constructor]. }
  assert (Hpage0 : awaited (issued h) first = Some page) by now apply awaited_app_fresh.
  assert (Hpage : awaited (issued h) (first ++ [(S (issued h), stats)]) = Some page).
  { rewrite awaited_app_old by lia. exact Hpage0. }
  assert (Hstats : awaited (S (issued h)) (first ++ [(S (issued h), stats)]) = Some stats)
    by now apply awaited_app_fresh.
  assert (Hforget_page : forget (issued h) (first ++ [(S (issued h), stats)]) =
                         (inflight h ++ [(S (issued h), stats)])%list).
  { rewrite (forget_app_l _ _ _ _ Hpage0). unfold first.
    now rewrite forget_app_fresh. }
  assert (Hforget_stats : forget (S (issued h)) (first ++ [(S (issued h), stats)]) = first)
    by now apply forget_app_fresh.
  assert (Hstats1 : awaited (S (issued h)) (inflight h ++ [(S (issued h), stats)]) =
                    Some stats).
  { apply awaited_app_fresh. eapply Forall_impl; [exact H |]. simpl. intros; lia. }
  assert (Hforget1 : forget (S (issued h)) (inflight h ++ [(S (issued h), stats)]) =
                     inflight h).
  { apply forget_app_fresh. eapply Forall_impl; [exact H |]. simpl. intros; lia. }
  assert (Hforget2 : forget (issued h) first = inflight h) by now apply forget_app_fresh.
  eexists. split; [apply refreshData_call |].
  cbn [pagination inflight]. fold page stats. fold first.
  split; [reflexivity |].
  split; [unfold first; now rewrite <- app_assoc |].
  split; [exact Hpage |]. split; [exact Hstats |].
  split; [| split].
  - intros s Hs. unfold step. cbn [inflight]. fold page stats. fold first.
    rewrite Hpage. destruct (resume page s); [discriminate | contradiction].
  - intros s Hs. unfold step. cbn [inflight]. fold page stats. fold first.
    rewrite Hstats. destruct (resume stats s); [discriminate | contradiction].
  - intros records summary.
    exists {| activitiesState := {| data := records; loading := false; error := None |};
              statsState :=
                {| stats_data := Some summary; stats_loading := false; stats_error := None |};
              pagination :=
                {| limit := limit (pagination h);
                   offset := 0;
                   hasMore := Z.of_nat (length records) =? limit (pagination h) |};
              inflight := inflight h;
              issued := S (S (issued h)) |}.
    split; [| split; [| repeat split]].
    + cbn [run]. unfold step at 1. cbn [inflight]. fold page stats. fold first.
      rewrite Hpage. unfold page at 1. cbn [resume].
      cbn. fold page stats. fold first. rewrite Hforget_page, Hstats1.
      cbn. now rewrite Hforget1.
    + cbn [run]. unfold step at 1. cbn [inflight]. fold page stats. fold first.
      rewrite Hstats. unfold stats at 1. cbn [resume].
      cbn. fold page stats. fold first. rewrite Hforget_stats, Hpage0.
      cbn. now rewrite Hforget2.
Qed.

Lemma refreshData_refetches_both_witness :
  wf Fixtures.two_pages_state = true /\
  offset (pagination Fixtures.two_pages_state) = 10 /\
  exists h1 h3,
    refreshData Fixtures.two_pages_state = (tt, h1) /\
    pagination h1 = {| limit := 10; offset := 0; hasMore := false |} /\
    inflight h1 =
      [(1%nat, Call_getActivityStats None None);
       (3%nat, Call_getActivities 10 0);
       (4%nat, Call_getActivityStats None None)] /\
    run h1 [Settle 4 (inr (Stats Fixtures.thirteen_logins));
            Settle 3 (inr (Activities (Fixtures.page_from 1 10)))] = Some h3 /\
    data (activitiesState h3) = Fixtures.page_from 1 10 /\
    pagination h3 = {| limit := 10; offset := 0; hasMore := true |} /\
    stats_data (statsState h3) = Some Fixtures.thirteen_logins /\
    stats_loading (statsState h3) = false.
Proof.
  split; [reflexivity |]. split; [reflexivity |].
  destruct (refreshData_refetches_both Fixtures.two_pages_state eq_refl)
    as (h1 & Hrun & Hp & Hcalls & _ & _ & _ & _ & Hboth).
  destruct (Hboth (Fixtures.page_from 1 10) Fixtures.thirteen_logins)
    as (h3 & _ & Hrev & Hact & Hp3 & Hst & _).
  exists h1, h3. split; [exact Hrun |]. split; [exact Hp |]. split; [exact Hcalls |].
  split; [exact Hrev |]. rewrite Hact, Hst. repeat split. exact Hp3.
Defined.

(** ** The authenticated calls of [lib/api.ts] *)

Lemma handle_unauthorized (response : Api.Response) net (env : Api.Env) :
  Api.status response = 401 ->
  Api.handleAuthenticatedResponse response net env =
  ({| Api.localStorage := delete "token" (Api.localStorage env);
      Api.location_href := "/login" |},
   [],
   inl (ErrorObj "Session expired. Please log in again.")).
Proof.
  intros H. unfold Api.handleAuthenticatedResponse. rewrite H. reflexivity.
Qed.

(** The response handler sends nothing itself. *)
Lemma handle_sends_nothing (response : Api.Response) net (env : Api.Env) :
  snd (fst (Api.handleAuthenticatedResponse response net env)) = [].
Proof.
  unfold Api.handleAuthenticatedResponse.
  destruct (Api.status response =? 401); [reflexivity |].
  destruct (negb (Api.ok response)).
  - destruct (Api.json_body response) as [e | v]; cbn.
    + reflexivity.
    + destruct v as [| b | n | s | items | fields]; cbn; try reflexivity.
  - destruct (Api.status response =? 204); [reflexivity |].
    destruct (Api.json_body response); reflexivity.
Qed.

(** Every call has the same frame: read the token, send one request built
    from it, hand the response to [handleAuthenticatedResponse]. *)
Lemma perform_frame (c : Api.call) :
  exists mk : string -> Api.Request,
    Api.perform c =
    Api.bind Api.getAuthToken
      (fun token => Api.bind (Api.fetch (mk token)) Api.handleAuthenticatedResponse).
Proof. destruct c; eexists; reflexivity. Qed.

(** C6. Whenever one of the authenticated calls has sent its request and
    the response it receives has status 401, the call leaves no [token] item
    in [localStorage], sets the location to [/login], and rejects with the
    session-expired error; it does not return a value. *)
Theorem unauthorized_clears_token
    (c : Api.call) (net : Api.Request -> thrown + Api.Response)
    (env env1 : Api.Env) (sent : list Api.Request) (r : thrown + option json)
    (req : Api.Request) (response : Api.Response) :
  Api.perform c net env = (env1, sent, r) ->
  In req sent ->
  net req = inr response ->
  Api.status response = 401 ->
  Api.localStorage env1 !! "token" = None /\
  Api.location_href env1 = "/login" /\
  r = inl (ErrorObj "Session expired. Please log in again.").
Proof.
  destruct (perform_frame c) as [mk ->].
  unfold Api.bind at 1. unfold Api.getAuthToken, Api.bind at 1, Api.getItem.
  destruct (Api.localStorage env !! "token") as [t |]; cbn [Api.throw app].
  2: { intros [= <- <- <-] []. }
  destruct (String.eqb t ""); cbn [Api.throw Api.ret app].
  { intros [= <- <- <-] []. }
  unfold Api.bind, Api.fetch.
  destruct (net (mk t)) as [e | resp0] eqn:Hnet.
  { intros [= <- <- <-] [<- | []] Hreq. congruence. }
  pose proof (handle_sends_nothing resp0 net env) as Hnone.
  destruct (Api.handleAuthenticatedResponse resp0 net env) as [[env2 sent2] r2] eqn:Hh.
  cbn in Hnone. subst sent2.
  intros [= <- <- <-] [<- | []] Hreq H401.
  rewrite Hnet in Hreq. injection Hreq as ->.
  rewrite (handle_unauthorized response net env H401) in Hh.
  injection Hh as <- <-. cbn.
  split; [apply lookup_delete_eq | split; reflexivity].
Qed.

Lemma unauthorized_clears_token_witness :
  In {| Api.method := "DELETE";
        Api.path := "/api/dashboard/activities/7";
        Api.query := [];
        Api.headers := [("Authorization", "Bearer abc")];
        Api.body := None |}
     (snd (fst (Api.perform (Api.DeleteActivity 7) Fixtures.expired Fixtures.signed_in))) /\
  Api.localStorage
    (fst (fst (Api.perform (Api.DeleteActivity 7) Fixtures.expired Fixtures.signed_in)))
    !! "token" = None /\
  Api.location_href
    (fst (fst (Api.perform (Api.DeleteActivity 7) Fixtures.expired Fixtures.signed_in)))
    = "/login" /\
  snd (Api.perform (Api.DeleteActivity 7) Fixtures.expired Fixtures.signed_in) =
    inl (ErrorObj "Session expired. Please log in again.").
Proof.
  split; [left; reflexivity |].
  destruct (Api.perform (Api.DeleteActivity 7) Fixtures.expired Fixtures.signed_in)
    as [[env1 sent] r] eqn:Hrun.
  refine (unauthorized_clears_token (Api.DeleteActivity 7) Fixtures.expired
            Fixtures.signed_in env1 sent r _ _ Hrun _ eq_refl eq_refl).
  vm_compute in Hrun. injection Hrun as <- <- <-. left. reflexivity.
Defined.

(** ** Default page sizes *)

Lemma forallb_forget (f : nat * ApiCall -> bool) (rid : nat) (l : list (nat * ApiCall)) :
  forallb f l = true -> forallb f (forget rid l) = true.
Proof.
  induction l as [| [n c] rest IH]; simpl; [reflexivity |].
  intros [Hf Hrest]%andb_prop.
  destruct (Nat.eqb n rid); [exact Hrest |].
  simpl. now rewrite Hf, IH.
Qed.

Lemma awaited_page_size (f : nat * ApiCall -> bool) (rid : nat)
    (l : list (nat * ApiCall)) (c : ApiCall) :
  forallb f l = true -> awaited rid l = Some c -> f (rid, c) = true.
Proof.
  intros Hall Ha. apply awaited_In in Ha.
  rewrite List.forallb_forall in Hall. now apply Hall.
Qed.

Lemma default_sized_issue (h h1 : Hook) (c : ApiCall) :
  limit (pagination h1) = limit (pagination h) ->
  inflight h1 = (inflight h ++ [(issued h, c)])%list ->
  page_size_is DEFAULT_LIMIT (issued h, c) = true ->
  default_sized h = true -> default_sized h1 = true.
Proof.
  unfold default_sized. intros -> -> Hc [Hl Hall]%andb_prop.
  rewrite Hl, forallb_app, Hall. simpl. now rewrite Hc.
Qed.

(** As long as no caller passes a page size of its own, the cursor and every
    page fetch the hook awaits use [DEFAULT_LIMIT]. *)
Lemma default_sized_step (h h1 : Hook) (e : event) :
  omits_limit e = true ->
  default_sized h = true ->
  step h e = Some h1 ->
  default_sized h1 = true.
Proof.
  intros He Hinv.
  assert (Hl : limit (pagination h) = DEFAULT_LIMIT).
  { apply andb_prop in Hinv. now apply Z.eqb_eq. }
  destruct e as [| l o | sd ed | new | i | | | rid s]; cbn [step].
  - intros [= <-].
    apply (default_sized_issue (snd (fetchActivities None None h)) _
             (Call_getActivityStats None None)); try reflexivity.
    now apply (default_sized_issue h _ (Call_getActivities DEFAULT_LIMIT 0)).
  - destruct l as [l |]; [discriminate |]. intros [= <-].
    now apply (default_sized_issue h _ (Call_getActivities DEFAULT_LIMIT (default 0 o))).
  - intros [= <-].
    now apply (default_sized_issue h _ (Call_getActivityStats sd ed)).
  - intros [= <-]. now apply (default_sized_issue h _ (Call_createActivity new)).
  - intros [= <-]. now apply (default_sized_issue h _ (Call_deleteActivity i)).
  - intros [= <-].
    unfold default_sized in *. cbn [snd pagination limit inflight].
    apply andb_prop in Hinv as [-> Hall].
    rewrite !forallb_app, Hall. cbn. now rewrite Hl.
  - intros [= <-]. unfold loadMore, bind, read.
    destruct (negb _ || _); [exact Hinv |].
    apply (default_sized_issue h _
             (Call_getActivities (limit (pagination h))
                (offset (pagination h) + limit (pagination h)))); try reflexivity.
    + unfold page_size_is. cbn. now apply Z.eqb_eq.
    + exact Hinv.
  - destruct (awaited rid (inflight h)) as [c |] eqn:Ha; [| discriminate].
    apply andb_prop in Hinv as [Hlim Hall].
    pose proof (awaited_page_size _ _ _ _ Hall Ha) as Hc.
    pose proof (forallb_forget _ rid _ Hall) as Hrest.
    destruct c as [l o | sd ed | new | i], s as [err | [page | stats | a |]];
      cbn [resume]; try discriminate; intros [= <-];
      unfold default_sized; cbn; rewrite ?forallb_app, ?Hrest, ?Hlim; try reflexivity.
    unfold page_size_is in Hc. cbn in Hc. now rewrite Hc.
Qed.

Lemma default_sized_run (es : list event) :
  forall h h1,
    forallb omits_limit es = true ->
    default_sized h = true ->
    run h es = Some h1 ->
    default_sized h1 = true.
Proof.
  induction es as [| e rest IH]; simpl; intros h h1 Hes Hinv.
  - intros [= <-]. exact Hinv.
  - apply andb_prop in Hes as [He Hrest].
    destruct (step h e) as [h2 |] eqn:Hs; [| discriminate].
    apply (IH h2 h1 Hrest). eapply default_sized_step; eauto.
Qed.

(** C7. With the limit argument omitted, [getActivities] of [lib/api.ts]
    (given a stored token, so that it sends its request) asks for
    [limit=50], with the offset defaulting to 0; [fetchActivities] of the
    hook asks [getActivities] for 10 records, at offset 0 when the offset is
    omitted as well, as the mount effect does; and as long as no caller
    passes a limit of its own, every page fetch of the hook, from
    [loadMore] and [refreshData] too, asks for 10. *)
Theorem default_page_sizes
    (net : Api.Request -> thrown + Api.Response) (env : Api.Env) (token : string)
    (offset : option Z) (h : Hook) :
  Api.localStorage env !! "token" = Some token ->
  token <> "" ->
  snd (fst (Api.getActivities None offset net env)) =
    [{| Api.method := "GET";
        Api.path := "/api/dashboard/activities";
        Api.query := [("limit", "50"); ("offset", decimal (default 0 offset))];
        Api.headers := [("Authorization", "Bearer " ++ token)];
        Api.body := None |}] /\
  inflight (snd (fetchActivities None offset h)) =
    (inflight h ++ [(issued h, Call_getActivities 10 (default 0 offset))])%list /\
  inflight (snd (mount h)) =
    (inflight h ++ [(issued h, Call_getActivities 10 0);
                    (S (issued h), Call_getActivityStats None None)])%list /\
  (forall (es : list event) (h1 : Hook),
     forallb omits_limit es = true ->
     run initial es = Some h1 ->
     limit (pagination h1) = 10 /\
     forall rid l o, awaited rid (inflight h1) = Some (Call_getActivities l o) -> l = 10).
Proof.
  intros Htok Hne. split; [| split; [reflexivity | split]].
  - unfold Api.getActivities, Api.bind at 1, Api.getAuthToken, Api.bind at 1, Api.getItem.
    rewrite Htok. apply String.eqb_neq in Hne. rewrite Hne.
    unfold Api.bind, Api.ret, Api.fetch.
    match goal with |- context [net ?r] => destruct (net r) as [e | resp] end.
    + reflexivity.
    + pose proof (handle_sends_nothing resp net env) as Hnone.
      destruct (Api.handleAuthenticatedResponse resp net env) as [[env2 sent2] r2].
      cbn in Hnone. subst sent2. reflexivity.
  - cbn. now rewrite <- app_assoc.
  - intros es h1 Hes Hrun.
    pose proof (default_sized_run es initial h1 Hes eq_refl Hrun) as Hinv.
    apply andb_prop in Hinv as [Hlim Hall]. split; [now apply Z.eqb_eq |].
    intros rid l o Ha.
    pose proof (awaited_page_size _ _ _ _ Hall Ha) as Hc.
    now apply Z.eqb_eq.
Qed.

Lemma default_page_sizes_witness :
  Api.localStorage Fixtures.signed_in !! "token" = Some "abc" /\
  "abc" <> "" /\
  snd (fst (Api.getActivities None None Fixtures.expired Fixtures.signed_in)) =
    [{| Api.method := "GET";
        Api.path := "/api/dashboard/activities";
        Api.query := [("limit", "50"); ("offset", "0")];
        Api.headers := [("Authorization", "Bearer abc")];
        Api.body := None |}] /\
  inflight (snd (fetchActivities None None initial)) = [(0%nat, Call_getActivities 10 0)].
Proof.
  assert (Htok : Api.localStorage Fixtures.signed_in !! "token" = Some "abc")
    by reflexivity.
  assert (Hne : "abc" <> "") by discriminate.
  destruct (default_page_sizes Fixtures.expired Fixtures.signed_in "abc" None initial
              Htok Hne) as [Hsent [Hhook _]].
  repeat split; assumption.
Defined.

(** * Further properties of [lib/api.ts] *)

(** Every dashboard call reads the token, sends one request that carries it
    as a bearer credential, and hands the response to
    [handleAuthenticatedResponse]. *)
Lemma perform_frame_bearer (c : Api.call) :
  exists mk : string -> Api.Request,
    (forall t, In (Api.bearer t) (Api.headers (mk t))) /\
    Api.perform c =
    Api.bind Api.getAuthToken
      (fun token => Api.bind (Api.fetch (mk token)) Api.handleAuthenticatedResponse).
Proof.
  destruct c; eexists; (split; [| reflexivity]); intros t; cbn; auto.
Qed.

Lemma frame_without_token (mk : string -> Api.Request) net (env : Api.Env) :
  Api.localStorage env !! "token" = None \/ Api.localStorage env !! "token" = Some "" ->
  Api.bind Api.getAuthToken
    (fun token => Api.bind (Api.fetch (mk token)) Api.handleAuthenticatedResponse) net env =
  (env, [], inl (ErrorObj "Authentication required. Please log in.")).
Proof.
  intros H. unfold Api.bind at 1. unfold Api.getAuthToken, Api.bind at 1, Api.getItem.
  destruct H as [-> | ->]; reflexivity.
Qed.

Lemma frame_with_token (mk : string -> Api.Request) net (env : Api.Env) (t : string) :
  Api.localStorage env !! "token" = Some t ->
  t <> "" ->
  Api.bind Api.getAuthToken
    (fun token => Api.bind (Api.fetch (mk token)) Api.handleAuthenticatedResponse) net env =
  match net (mk t) with
  | inl e => (env, [mk t], inl e)
  | inr response =>
      (fst (fst (Api.handleAuthenticatedResponse response net env)), [mk t],
       snd (Api.handleAuthenticatedResponse response net env))
  end.
Proof.
  intros Htok Hne. apply String.eqb_neq in Hne.
  unfold Api.bind at 1. unfold Api.getAuthToken, Api.bind at 1, Api.getItem.
  rewrite Htok, Hne. unfold Api.ret, Api.bind, Api.fetch.
  destruct (net (mk t)) as [e | response]; [reflexivity |].
  pose proof (handle_sends_nothing response net env) as Hnone.
  destruct (Api.handleAuthenticatedResponse response net env) as [[env2 sent2] r2].
  cbn in Hnone. subst sent2. reflexivity.
Qed.

Lemma handle_keeps_env (response : Api.Response) net (env : Api.Env) :
  Api.status response <> 401 ->
  fst (fst (Api.handleAuthenticatedResponse response net env)) = env.
Proof.
  intros H. apply Z.eqb_neq in H. unfold Api.handleAuthenticatedResponse. rewrite H.
  destruct (negb (Api.ok response)).
  - destruct (Api.json_body response) as [e | v]; cbn; [reflexivity |].
    destruct v; reflexivity.
  - destruct (Api.status response =? 204); [reflexivity |].
    destruct (Api.json_body response); reflexivity.
Qed.

Lemma handle_not_ok_rejects (response : Api.Response) net (env : Api.Env) :
  Api.ok response = false ->
  exists e, snd (Api.handleAuthenticatedResponse response net env) = inl e.
Proof.
  intros H. unfold Api.handleAuthenticatedResponse. rewrite H.
  destruct (Api.status response =? 401); [eexists; reflexivity |]. cbn [negb].
  destruct (Api.json_body response) as [e | v]; cbn; [eexists; reflexivity |].
  destruct v; cbn; eexists; reflexivity.
Qed.

(** X1. Without a stored token, or with an empty one, every dashboard call
    rejects with the authentication-required error, sends no request and
    leaves the browser state as it was. *)
Theorem no_token_no_request
    (c : Api.call) (net : Api.Request -> thrown + Api.Response) (env : Api.Env) :
  Api.localStorage env !! "token" = None \/ Api.localStorage env !! "token" = Some "" ->
  Api.perform c net env =
  (env, [], inl (ErrorObj "Authentication required. Please log in.")).
Proof.
  intros H. destruct (perform_frame_bearer c) as [mk [_ ->]].
  now apply frame_without_token.
Qed.

Lemma no_token_no_request_witness :
  Api.perform (Api.GetActivities None None) (Fixtures.answer Fixtures.not_found)
    Fixtures.signed_out =
  (Fixtures.signed_out, [], inl (ErrorObj "Authentication required. Please log in.")).
Proof.
  apply (no_token_no_request (Api.GetActivities None None)).
  left. reflexivity.
Defined.

(** X2. With a non-empty stored token, every dashboard call sends exactly
    one request, whatever the answer, and that request carries the header
    [Authorization: Bearer <token>]. *)
Theorem one_request_with_bearer
    (c : Api.call) (net : Api.Request -> thrown + Api.Response) (env : Api.Env)
    (t : string) :
  Api.localStorage env !! "token" = Some t ->
  t <> "" ->
  exists req,
    snd (fst (Api.perform c net env)) = [req] /\
    In ("Authorization", "Bearer " ++ t) (Api.headers req).
Proof.
  intros Htok Hne. destruct (perform_frame_bearer c) as [mk [Hb ->]].
  exists (mk t). split; [| apply Hb].
  rewrite (frame_with_token mk net env t Htok Hne).
  destruct (net (mk t)); reflexivity.
Qed.

Lemma one_request_with_bearer_witness :
  exists req,
    snd (fst (Api.perform (Api.GetActivity 7) Fixtures.offline Fixtures.signed_in)) = [req] /\
    In ("Authorization", "Bearer abc") (Api.headers req).
Proof.
  apply (one_request_with_bearer (Api.GetActivity 7) Fixtures.offline Fixtures.signed_in "abc").
  - reflexivity.
  - discriminate.
Defined.

(** X3. A dashboard call changes the browser state only on a 401: if no
    response it received has status 401 (or the request failed on the
    network), [localStorage] and the location are exactly as before. *)
Theorem only_401_touches_browser
    (c : Api.call) (net : Api.Request -> thrown + Api.Response)
    (env env1 : Api.Env) (sent : list Api.Request) (r : thrown + option json) :
  Api.perform c net env = (env1, sent, r) ->
  (forall req response,
     In req sent -> net req = inr response -> Api.status response <> 401) ->
  env1 = env.
Proof.
  destruct (perform_frame_bearer c) as [mk [_ ->]].
  destruct (Api.localStorage env !! "token") as [t |] eqn:Htok.
  2: { rewrite frame_without_token by auto. now intros [= <- _ _]. }
  destruct (String.eqb_spec t "") as [-> | Hne].
  { rewrite frame_without_token by auto. now intros [= <- _ _]. }
  rewrite (frame_with_token mk net env t Htok Hne).
  destruct (net (mk t)) as [e | response] eqn:Hnet.
  - now intros [= <- _ _].
  - intros [= <- <- _] Hno. apply handle_keeps_env.
    apply (Hno (mk t)); [now left | exact Hnet].
Qed.

Lemma only_401_touches_browser_witness :
  fst (fst (Api.perform (Api.DeleteActivity 7) (Fixtures.answer Fixtures.not_found)
              Fixtures.signed_in)) = Fixtures.signed_in.
Proof.
  destruct (Api.perform (Api.DeleteActivity 7) (Fixtures.answer Fixtures.not_found)
              Fixtures.signed_in) as [[env1 sent] r] eqn:Hrun.
  apply (only_401_touches_browser (Api.DeleteActivity 7)
           (Fixtures.answer Fixtures.not_found) Fixtures.signed_in env1 sent r Hrun).
  intros req response _ [= <-]. discriminate.
Defined.

(** X4. A dashboard call never returns data for a request that failed: if
    the network rejects the request, the call rejects with the very same
    thrown value and the browser state is untouched; if the response is not
    [ok], the call rejects, whatever the status and the body. *)
Theorem failed_request_rejects
    (c : Api.call) (net : Api.Request -> thrown + Api.Response)
    (env env1 : Api.Env) (sent : list Api.Request) (r : thrown + option json)
    (req : Api.Request) :
  Api.perform c net env = (env1, sent, r) ->
  In req sent ->
  match net req with
  | inl e => r = inl e /\ env1 = env
  | inr response => Api.ok response = false -> exists e, r = inl e
  end.
Proof.
  destruct (perform_frame_bearer c) as [mk [_ ->]].
  destruct (Api.localStorage env !! "token") as [t |] eqn:Htok.
  2: { rewrite frame_without_token by auto. now intros [= _ <- _] []. }
  destruct (String.eqb_spec t "") as [-> | Hne].
  { rewrite frame_without_token by auto. now intros [= _ <- _] []. }
  rewrite (frame_with_token mk net env t Htok Hne).
  destruct (net (mk t)) as [e | response] eqn:Hnet.
  - intros [= <- <- <-] [<- | []]. rewrite Hnet. split; reflexivity.
  - intros [= <- <- <-] [<- | []]. rewrite Hnet. apply handle_not_ok_rejects.
Qed.

Lemma failed_request_rejects_witness :
  snd (Api.perform (Api.CreateActivity Fixtures.login_data) Fixtures.offline
         Fixtures.signed_in) = inl (ErrorObj "Failed to fetch") /\
  fst (fst (Api.perform (Api.CreateActivity Fixtures.login_data) Fixtures.offline
              Fixtures.signed_in)) = Fixtures.signed_in.
Proof.
  destruct (Api.perform (Api.CreateActivity Fixtures.login_data) Fixtures.offline
              Fixtures.signed_in) as [[env1 sent] r] eqn:Hrun.
  assert (Hsent : In {| Api.method := "POST";
                        Api.path := "/api/dashboard/activities";
                        Api.query := [];
                        Api.headers := [("Content-Type", "application/json");
                                        ("Authorization", "Bearer abc")];
                        Api.body := Some (Api.stringify Fixtures.login_data) |} sent).
  { vm_compute in Hrun. injection Hrun as <- <- <-. left. reflexivity. }
  exact (failed_request_rejects (Api.CreateActivity Fixtures.login_data) Fixtures.offline
           Fixtures.signed_in env1 sent r _ Hrun Hsent).
Defined.

Lemma handle_error_message (response : Api.Response) net (env : Api.Env) :
  Api.ok response = false ->
  Api.status response <> 401 ->
  (forall e, Api.json_body response = inl e ->
     snd (Api.handleAuthenticatedResponse response net env) =
       inl (ErrorObj "Unknown error")) /\
  (forall fields s,
     Api.json_body response = inr (JObj fields) ->
     assoc "detail" fields = Some (JStr s) -> s <> "" ->
     snd (Api.handleAuthenticatedResponse response net env) = inl (ErrorObj s)) /\
  (forall fields,
     Api.json_body response = inr (JObj fields) ->
     assoc "detail" fields = None ->
     snd (Api.handleAuthenticatedResponse response net env) =
       inl (ErrorObj ("Request failed with status " ++ decimal (Api.status response)))).
Proof.
  intros Hok H401. apply Z.eqb_neq in H401.
  unfold Api.handleAuthenticatedResponse. rewrite H401, Hok. cbn [negb].
  split; [| split].
  - intros e ->. reflexivity.
  - intros fields s -> Hd Hne. cbn. rewrite Hd. cbn.
    apply String.eqb_neq in Hne. now rewrite Hne.
  - intros fields -> Hd. cbn. rewrite Hd. reflexivity.
Qed.

(** A dashboard call that sent [req] and received a response went through
    [handleAuthenticatedResponse] with the state it started in. *)
Lemma perform_received
    (c : Api.call) (net : Api.Request -> thrown + Api.Response)
    (env env1 : Api.Env) (sent : list Api.Request) (r : thrown + option json)
    (req : Api.Request) (response : Api.Response) :
  Api.perform c net env = (env1, sent, r) ->
  In req sent ->
  net req = inr response ->
  env1 = fst (fst (Api.handleAuthenticatedResponse response net env)) /\
  r = snd (Api.handleAuthenticatedResponse response net env).
Proof.
  destruct (perform_frame_bearer c) as [mk [_ ->]].
  destruct (Api.localStorage env !! "token") as [t |] eqn:Htok.
  2: { rewrite frame_without_token by auto. now intros [= _ <- _] []. }
  destruct (String.eqb_spec t "") as [-> | Hne].
  { rewrite frame_without_token by auto. now intros [= _ <- _] []. }
  rewrite (frame_with_token mk net env t Htok Hne).
  destruct (net (mk t)) as [e | response0] eqn:Hnet.
  - intros [= <- <- <-] [<- | []] Hreq. congruence.
  - intros [= <- <- <-] [<- | []] Hreq.
    rewrite Hnet in Hreq. injection Hreq as ->. split; reflexivity.
Qed.

(** X5. When a dashboard call receives a response that is not [ok] and not a
    401, the error it rejects with takes its message from the body: the
    [detail] string of a JSON object when there is a non-empty one,
    ["Unknown error"] when the body is not JSON, and
    ["Request failed with status <status>"] when the object has no
    [detail]. *)
Theorem error_message_from_detail
    (c : Api.call) (net : Api.Request -> thrown + Api.Response)
    (env env1 : Api.Env) (sent : list Api.Request) (r : thrown + option json)
    (req : Api.Request) (response : Api.Response) :
  Api.perform c net env = (env1, sent, r) ->
  In req sent ->
  net req = inr response ->
  Api.ok response = false ->
  Api.status response <> 401 ->
  (forall e, Api.json_body response = inl e -> r = inl (ErrorObj "Unknown error")) /\
  (forall fields s,
     Api.json_body response = inr (JObj fields) ->
     assoc "detail" fields = Some (JStr s) -> s <> "" ->
     r = inl (ErrorObj s)) /\
  (forall fields,
     Api.json_body response = inr (JObj fields) ->
     assoc "detail" fields = None ->
     r = inl (ErrorObj ("Request failed with status " ++ decimal (Api.status response)))).
Proof.
  intros Hrun Hin Hnet Hok H401.
  destruct (perform_received c net env env1 sent r req response Hrun Hin Hnet) as [_ ->].
  now apply handle_error_message.
Qed.

Lemma error_message_from_detail_witness :
  snd (Api.perform (Api.DeleteActivity 7) (Fixtures.answer Fixtures.not_found)
         Fixtures.signed_in) = inl (ErrorObj "Activity not found") /\
  snd (Api.perform (Api.DeleteActivity 7) (Fixtures.answer Fixtures.bad_gateway)
         Fixtures.signed_in) = inl (ErrorObj "Unknown error").
Proof.
  split.
  - destruct (Api.perform (Api.DeleteActivity 7) (Fixtures.answer Fixtures.not_found)
                Fixtures.signed_in) as [[env1 sent] r] eqn:Hrun.
    assert (Hsent : In {| Api.method := "DELETE";
                          Api.path := "/api/dashboard/activities/7";
                          Api.query := [];
                          Api.headers := [("Authorization", "Bearer abc")];
                          Api.body := None |} sent).
    { vm_compute in Hrun. injection Hrun as <- <- <-. left. reflexivity. }
    refine (proj1 (proj2 (error_message_from_detail (Api.DeleteActivity 7)
                            (Fixtures.answer Fixtures.not_found) Fixtures.signed_in
                            env1 sent r _ Fixtures.not_found Hrun Hsent eq_refl eq_refl _))
              [("detail", JStr "Activity not found")] "Activity not found"
              eq_refl eq_refl _); discriminate.
  - destruct (Api.perform (Api.DeleteActivity 7) (Fixtures.answer Fixtures.bad_gateway)
                Fixtures.signed_in) as [[env1 sent] r] eqn:Hrun.
    assert (Hsent : In {| Api.method := "DELETE";
                          Api.path := "/api/dashboard/activities/7";
                          Api.query := [];
                          Api.headers := [("Authorization", "Bearer abc")];
                          Api.body := None |} sent).
    { vm_compute in Hrun. injection Hrun as <- <- <-. left. reflexivity. }
    refine (proj1 (error_message_from_detail (Api.DeleteActivity 7)
                     (Fixtures.answer Fixtures.bad_gateway) Fixtures.signed_in
                     env1 sent r _ Fixtures.bad_gateway Hrun Hsent eq_refl eq_refl _)
              _ eq_refl); discriminate.
Defined.

(** X6. When a dashboard call receives an [ok] response, it leaves the
    browser state alone and resolves: to [undefined], without reading the
    body, if the status is 204; otherwise to the parsed body, or it rejects
    with the parse error if the body is not JSON. *)
Theorem ok_response_resolves
    (c : Api.call) (net : Api.Request -> thrown + Api.Response)
    (env env1 : Api.Env) (sent : list Api.Request) (r : thrown + option json)
    (req : Api.Request) (response : Api.Response) :
  Api.perform c net env = (env1, sent, r) ->
  In req sent ->
  net req = inr response ->
  Api.ok response = true ->
  Api.status response <> 401 ->
  env1 = env /\
  (Api.status response = 204 -> r = inr None) /\
  (Api.status response <> 204 ->
   r = match Api.json_body response with
       | inl e => inl e
       | inr v => inr (Some v)
       end).
Proof.
  intros Hrun Hin Hnet Hok H401.
  destruct (perform_received c net env env1 sent r req response Hrun Hin Hnet) as [-> ->].
  split; [now apply handle_keeps_env |].
  apply Z.eqb_neq in H401.
  unfold Api.handleAuthenticatedResponse. rewrite H401, Hok. cbn [negb].
  split.
  - intros ->. reflexivity.
  - intros H204. apply Z.eqb_neq in H204. rewrite H204.
    destruct (Api.json_body response); reflexivity.
Qed.

Lemma ok_response_resolves_witness :
  Api.perform (Api.DeleteActivity 7) (Fixtures.answer Fixtures.no_content)
    Fixtures.signed_in =
  (Fixtures.signed_in,
   [{| Api.method := "DELETE";
       Api.path := "/api/dashboard/activities/7";
       Api.query := [];
       Api.headers := [("Authorization", "Bearer abc")];
       Api.body := None |}],
   inr None).
Proof.
  destruct (Api.perform (Api.DeleteActivity 7) (Fixtures.answer Fixtures.no_content)
              Fixtures.signed_in) as [[env1 sent] r] eqn:Hrun.
  assert (Hsent : sent = [{| Api.method := "DELETE";
                             Api.path := "/api/dashboard/activities/7";
                             Api.query := [];
                             Api.headers := [("Authorization", "Bearer abc")];
                             Api.body := None |}]).
  { vm_compute in Hrun. now injection Hrun as <- <- <-. }
  assert (Hin : In {| Api.method := "DELETE";
                      Api.path := "/api/dashboard/activities/7";
                      Api.query := [];
                      Api.headers := [("Authorization", "Bearer abc")];
                      Api.body := None |} sent) by (rewrite Hsent; now left).
  assert (H401 : Api.status Fixtures.no_content <> 401) by discriminate.
  destruct (ok_response_resolves (Api.DeleteActivity 7) (Fixtures.answer Fixtures.no_content)
              Fixtures.signed_in env1 sent r _ Fixtures.no_content Hrun Hin eq_refl eq_refl
              H401) as [Henv [Hr _]].
  rewrite Henv, (Hr eq_refl), Hsent. reflexivity.
Defined.

Lemma decimal_inj (n m : Z) : decimal n = decimal m -> n = m.
Proof.
  unfold decimal. intros H. apply DecimalZ.to_int_inj.
  assert (Hnz : forall z, Z.to_int z <> Decimal.Pos Decimal.Nil /\
                          Z.to_int z <> Decimal.Neg Decimal.Nil).
  { intros [| p | p]; simpl; split; try discriminate;
      intros [= Hp]; now apply DecimalPos.Unsigned.to_uint_nonnil in Hp. }
  apply (f_equal NilZero.int_of_string) in H.
  rewrite !NilZero.isi in H by apply Hnz.
  now injection H.
Qed.

(** X7. [getActivityStats] adds a query parameter only for a date that is
    given and not empty: with both dates missing or empty the request goes
    to [/api/dashboard/stats] with no query at all, and with both present
    the query is [start_date] followed by [end_date]. *)
Theorem stats_query_skips_missing_dates
    (net : Api.Request -> thrown + Api.Response) (env : Api.Env) (t : string)
    (startDate endDate : option string) :
  Api.localStorage env !! "token" = Some t ->
  t <> "" ->
  exists req,
    snd (fst (Api.getActivityStats startDate endDate net env)) = [req] /\
    Api.path req = "/api/dashboard/stats" /\
    (Api.query req = [] <->
     (startDate = None \/ startDate = Some "") /\ (endDate = None \/ endDate = Some "")) /\
    (forall s e, startDate = Some s -> endDate = Some e -> s <> "" -> e <> "" ->
       Api.query req = [("start_date", s); ("end_date", e)]).
Proof.
  intros Htok Hne. eexists. split.
  - unfold Api.getActivityStats.
    rewrite (frame_with_token (fun token => _) net env t Htok Hne).
    match goal with |- context [net ?q] => destruct (net q) end; reflexivity.
  - cbn [Api.path Api.query]. split; [reflexivity |]. split.
    + unfold Api.append_if. split.
      * destruct startDate as [s |], endDate as [e |];
          try destruct (String.eqb_spec s ""); try destruct (String.eqb_spec e "");
          subst; cbn; intros H; try discriminate; split; auto.
      * intros [[-> | ->] [-> | ->]]; reflexivity.
    + intros s e -> -> Hs He. unfold Api.append_if.
      apply String.eqb_neq in Hs, He. now rewrite Hs, He.
Qed.

Lemma stats_query_skips_missing_dates_witness :
  exists req,
    snd (fst (Api.getActivityStats (Some "") None Fixtures.offline Fixtures.signed_in)) =
      [req] /\
    Api.path req = "/api/dashboard/stats" /\
    Api.query req = [].
Proof.
  destruct (stats_query_skips_missing_dates Fixtures.offline Fixtures.signed_in "abc"
              (Some "") None eq_refl) as [req [Hsent [Hpath [Hq _]]]]; [discriminate |].
  exists req. split; [exact Hsent |]. split; [exact Hpath |].
  apply Hq. split; [right | left]; reflexivity.
Defined.

(** X8. [getActivity] and [deleteActivity] address a record by the decimal
    text of its id under [/api/dashboard/activities/]: the two requests go
    to the same path exactly when the ids are equal. *)
Theorem activity_paths_distinct
    (net : Api.Request -> thrown + Api.Response) (env : Api.Env) (t : string) (i j : Z) :
  Api.localStorage env !! "token" = Some t ->
  t <> "" ->
  exists get del,
    snd (fst (Api.getActivity i net env)) = [get] /\
    snd (fst (Api.deleteActivity j net env)) = [del] /\
    Api.path get = "/api/dashboard/activities/" ++ decimal i /\
    Api.method get = "GET" /\ Api.method del = "DELETE" /\
    (Api.path get = Api.path del <-> i = j).
Proof.
  intros Htok Hne. eexists. eexists. split; [| split].
  - unfold Api.getActivity.
    rewrite (frame_with_token (fun token => _) net env t Htok Hne).
    match goal with |- context [net ?q] => destruct (net q) end; reflexivity.
  - unfold Api.deleteActivity.
    rewrite (frame_with_token (fun token => _) net env t Htok Hne).
    match goal with |- context [net ?q] => destruct (net q) end; reflexivity.
  - cbn [Api.path Api.method]. repeat split.
    + unfold Api.DASHBOARD_API_URL. cbn. intros [= H]. now apply decimal_inj.
    + now intros ->.
Qed.

Lemma activity_paths_distinct_witness :
  exists get del,
    snd (fst (Api.getActivity 7 Fixtures.offline Fixtures.signed_in)) = [get] /\
    snd (fst (Api.deleteActivity 70 Fixtures.offline Fixtures.signed_in)) = [del] /\
    Api.path get = "/api/dashboard/activities/7" /\
    Api.path get <> Api.path del.
Proof.
  destruct (activity_paths_distinct Fixtures.offline Fixtures.signed_in "abc" 7 70 eq_refl)
    as [get [del [Hg [Hd [Hp [_ [_ Hiff]]]]]]]; [discriminate |].
  exists get, del. repeat split; try assumption.
  intros Heq. apply Hiff in Heq. discriminate.
Defined.

(** ** The auth API *)

(** What an auth call makes of the response to its request. *)
Lemma auth_call_result (c : Api.auth_call) :
  exists (req : Api.Request),
    forall (net : Api.Request -> thrown + Api.Response) (env : Api.Env),
      Api.perform_auth c net env =
      (env, [req],
       match net req with
       | inl e => inl e
       | inr response =>
           if Api.ok response then Api.json_body response
           else
             match Api.json_body response with
             | inl e => inl e
             | inr v =>
                 match get_prop v "detail" with
                 | inl e => inl e
                 | inr detail =>
                     inl (ErrorObj
                            (Api.detail_or detail
                               match c with
                               | Api.Register _ => "Registration failed"
                               | Api.Login _ => "Login failed"
                               | Api.GetCurrentUser _ => "Failed to get user info"
                               end))
                 end
             end
       end).
Proof.
  destruct c as [data | data | token];
    [ exists {| Api.method := "POST";
                Api.path := Api.API_BASE_URL ++ "/register";
                Api.query := [];
                Api.headers := [("Content-Type", "application/json")];
                Api.body := Some (Api.stringify_register data) |}
    | exists {| Api.method := "POST";
                Api.path := Api.API_BASE_URL ++ "/login";
                Api.query := [];
                Api.headers := [("Content-Type", "application/json")];
                Api.body := Some (Api.stringify_login data) |}
    | exists {| Api.method := "GET";
                Api.path := Api.API_BASE_URL ++ "/me";
                Api.query := [];
                Api.headers := [Api.bearer token];
                Api.body := None |} ];
    intros net env; cbn [Api.perform_auth];
    unfold Api.register, Api.login, Api.getCurrentUser, Api.bind at 1, Api.fetch;
    (match goal with |- context [net ?q] => destruct (net q) as [e | response] end;
     [reflexivity |]);
    destruct (Api.ok response); cbn [negb];
    destruct (Api.json_body response) as [e | v]; cbn; try reflexivity;
    destruct v; reflexivity.
Qed.

(** X9. [register], [login] and [getCurrentUser] never read or change the
    browser state and always send exactly one request, fixed by their
    arguments alone; in particular a 401 answer to them removes no token
    and redirects nowhere. *)
Theorem auth_calls_leave_browser_alone (c : Api.auth_call) :
  exists req,
    forall (net : Api.Request -> thrown + Api.Response) (env : Api.Env),
      fst (Api.perform_auth c net env) = (env, [req]).
Proof.
  destruct (auth_call_result c) as [req H]. exists req. intros net env.
  now rewrite H.
Qed.

(** X10. When the response to an auth call is not [ok], the call rejects
    with the [detail] string of the JSON body if there is a non-empty one,
    with its own fixed message if the JSON object has no [detail], and with
    the parse error itself if the body is not JSON (there is no
    ["Unknown error"] here); an [ok] response resolves to the parsed
    body. *)
Theorem auth_call_outcome
    (c : Api.auth_call) (net : Api.Request -> thrown + Api.Response) (env : Api.Env)
    (req : Api.Request) (response : Api.Response) :
  snd (fst (Api.perform_auth c net env)) = [req] ->
  net req = inr response ->
  let r := snd (Api.perform_auth c net env) in
  let fallback :=
    match c with
    | Api.Register _ => "Registration failed"
    | Api.Login _ => "Login failed"
    | Api.GetCurrentUser _ => "Failed to get user info"
    end in
  (Api.ok response = true ->
   r = Api.json_body response) /\
  (Api.ok response = false ->
   (forall e, Api.json_body response = inl e -> r = inl e) /\
   (forall fields s,
      Api.json_body response = inr (JObj fields) ->
      assoc "detail" fields = Some (JStr s) -> s <> "" ->
      r = inl (ErrorObj s)) /\
   (forall fields,
      Api.json_body response = inr (JObj fields) ->
      assoc "detail" fields = None ->
      r = inl (ErrorObj fallback))).
Proof.
  destruct (auth_call_result c) as [req0 H]. rewrite H. cbn [fst snd].
  intros [= <-] Hnet. cbv zeta. rewrite Hnet. split.
  - now intros ->.
  - intros ->. split; [| split].
    + now intros e ->.
    + intros fields s -> Hd Hne. cbn. rewrite Hd. cbn.
      apply String.eqb_neq in Hne. now rewrite Hne.
    + intros fields -> Hd. cbn. now rewrite Hd.
Qed.

Lemma auth_call_outcome_witness :
  snd (Api.perform_auth
         (Api.Login {| Api.login_email := "a@b.c"; Api.login_password := "x" |})
         (Fixtures.answer Fixtures.wrong_password) Fixtures.signed_in) =
    inl (ErrorObj "Incorrect email or password") /\
  fst (fst (Api.perform_auth
              (Api.Login {| Api.login_email := "a@b.c"; Api.login_password := "x" |})
              (Fixtures.answer Fixtures.wrong_password) Fixtures.signed_in)) =
    Fixtures.signed_in.
Proof.
  split; [| reflexivity].
  refine (proj1 (proj2 (proj2 (auth_call_outcome
            (Api.Login {| Api.login_email := "a@b.c"; Api.login_password := "x" |})
            (Fixtures.answer Fixtures.wrong_password) Fixtures.signed_in
            _ Fixtures.wrong_password eq_refl eq_refl) eq_refl))
            [("detail", JStr "Incorrect email or password")]
            "Incorrect email or password" eq_refl eq_refl _).
  discriminate.
Defined.

(** * Properties of [AuthContext] and [ProtectedRoute] *)

Lemma getCurrentUser_env (token : string) net (env : Api.Env) :
  exists sent, Api.getCurrentUser token net env =
               (env, sent, snd (Api.getCurrentUser token net env)).
Proof.
  destruct (auth_call_result (Api.GetCurrentUser token)) as [req H].
  cbn [Api.perform_auth] in H. exists [req]. now rewrite H.
Qed.

Lemma getCurrentUser_any_env (token : string) net (env env' : Api.Env) :
  snd (Api.getCurrentUser token net env) = snd (Api.getCurrentUser token net env').
Proof.
  destruct (auth_call_result (Api.GetCurrentUser token)) as [req H].
  cbn [Api.perform_auth] in H. now rewrite !H.
Qed.

(** X11. If the login request is answered with a body whose [access_token]
    is a non-empty string, [login] stores that token in [localStorage] and
    in the token cell before it asks for the user, so the token stays
    stored whether or not [getCurrentUser] then succeeds, and
    [getAuthToken] returns it afterwards.  [login] resolves with the user
    cell set to the body of [/me], or rejects with the error of
    [getCurrentUser] and leaves the user cell as it was. *)
Theorem login_stores_token
    (net : Api.Request -> thrown + Api.Response)
    (st : AuthContext.AuthState) (env : Api.Env)
    (email password t : string) (fields : list (string * json)) :
  snd (Api.login {| Api.login_email := email; Api.login_password := password |} net env) =
    inr (JObj fields) ->
  assoc "access_token" fields = Some (JStr t) ->
  t <> "" ->
  exists st1 env1 sent r,
    AuthContext.login email password net (st, env) = ((st1, env1), sent, r) /\
    Api.localStorage env1 !! "token" = Some t /\
    AuthContext.token st1 = Some (JStr t) /\
    Api.getAuthToken net env1 = (env1, [], inr t) /\
    match snd (Api.getCurrentUser t net env) with
    | inr userData => r = inr tt /\ AuthContext.user st1 = userData
    | inl e => r = inl e /\ AuthContext.user st1 = AuthContext.user st
    end.
Proof.
  intros Hlogin Htok Hne.
  destruct (auth_call_result
              (Api.Login {| Api.login_email := email; Api.login_password := password |}))
    as [req Hreq].
  cbn [Api.perform_auth] in Hreq. rewrite Hreq in Hlogin. cbn [snd] in Hlogin.
  unfold AuthContext.login, AuthContext.bind at 1, AuthContext.lift at 1.
  cbn [fst snd]. rewrite Hreq, Hlogin.
  unfold AuthContext.bind at 1, AuthContext.lift at 1. cbn [fst snd get_prop Api.await].
  rewrite Htok. cbn [Api.ret].
  unfold AuthContext.bind at 1, AuthContext.lift at 1, AuthContext.setItem. cbn [fst snd].
  unfold AuthContext.bind at 1, AuthContext.setToken at 1. cbn [fst snd].
  unfold AuthContext.bind at 1, AuthContext.lift at 1. cbn [fst snd AuthContext.template ToString].
  set (env1 := {| Api.localStorage := <["token" := t]> (Api.localStorage env);
                  Api.location_href := Api.location_href env |}).
  destruct (getCurrentUser_env t net env1) as [sent2 Hme]. rewrite Hme.
  rewrite (getCurrentUser_any_env t net env env1).
  assert (Hstored : Api.localStorage env1 !! "token" = Some t) by apply lookup_insert_eq.
  assert (Hget : Api.getAuthToken net env1 = (env1, [], inr t)).
  { unfold Api.getAuthToken, Api.bind, Api.getItem. rewrite Hstored.
    apply String.eqb_neq in Hne. now rewrite Hne. }
  destruct (snd (Api.getCurrentUser t net env1)) as [e | userData].
  - do 4 eexists. split; [reflexivity |]. repeat split; assumption.
  - do 4 eexists. split; [reflexivity |]. repeat split; assumption.
Qed.

Lemma login_stores_token_witness :
  exists st1 env1 sent,
    AuthContext.login "ann@example.org" "secret" Fixtures.auth_backend
      (AuthContext.initial, Fixtures.signed_out) = ((st1, env1), sent, inr tt) /\
    Api.localStorage env1 !! "token" = Some "abc" /\
    AuthContext.token st1 = Some (JStr "abc") /\
    Api.getAuthToken Fixtures.auth_backend env1 = (env1, [], inr "abc") /\
    AuthContext.user st1 = Fixtures.ann.
Proof.
  assert (Hne : "abc" <> "") by discriminate.
  destruct (login_stores_token Fixtures.auth_backend AuthContext.initial Fixtures.signed_out
              "ann@example.org" "secret" "abc"
              [("access_token", JStr "abc"); ("token_type", JStr "bearer")]
              eq_refl eq_refl Hne)
    as [st1 [env1 [sent [r [Hrun [Hstored [Htok [Hget Hme]]]]]]]].
  cbn in Hme. destruct Hme as [-> Huser].
  exists st1, env1, sent. repeat split; assumption.
Defined.

Lemma init_result (net : Api.Request -> thrown + Api.Response)
    (st : AuthContext.AuthState) (env : Api.Env) :
  AuthContext.init net (st, env) =
  match Api.localStorage env !! "token" with
  | None =>
      (({| AuthContext.user := AuthContext.user st;
           AuthContext.token := AuthContext.token st;
           AuthContext.loading := false |}, env), [], inr tt)
  | Some t =>
      if String.eqb t "" then
        (({| AuthContext.user := AuthContext.user st;
             AuthContext.token := AuthContext.token st;
             AuthContext.loading := false |}, env), [], inr tt)
      else
        match Api.getCurrentUser t net env with
        | (_, sent, inr userData) =>
            (({| AuthContext.user := userData;
                 AuthContext.token := Some (JStr t);
                 AuthContext.loading := false |}, env), sent, inr tt)
        | (_, sent, inl _) =>
            (({| AuthContext.user := AuthContext.user st;
                 AuthContext.token := Some JNull;
                 AuthContext.loading := false |},
              {| Api.localStorage := delete "token" (Api.localStorage env);
                 Api.location_href := Api.location_href env |}), sent, inr tt)
        end
  end.
Proof.
  unfold AuthContext.init, AuthContext.bind at 1, AuthContext.lift at 1, Api.getItem.
  cbn [fst snd]. destruct (Api.localStorage env !! "token") as [t |]; [| reflexivity].
  destruct (String.eqb t ""); [reflexivity |].
  unfold AuthContext.bind at 1, AuthContext.setToken at 1. cbn [fst snd].
  unfold AuthContext.bind at 1, AuthContext.settled, AuthContext.lift at 1. cbn [fst snd].
  destruct (getCurrentUser_env t net env) as [sent Hme]. rewrite Hme.
  destruct (snd (Api.getCurrentUser t net env)) as [e | userData]; cbn;
    now rewrite ?app_nil_r.
Qed.

(** X12. The mount effect of [AuthProvider] never rejects, sends at most one
    request, and always ends with the loading cell false, whatever is
    stored and whatever the backend answers; it never changes the
    location. *)
Theorem init_always_finishes
    (net : Api.Request -> thrown + Api.Response)
    (st : AuthContext.AuthState) (env : Api.Env) :
  exists st1 env1 sent,
    AuthContext.init net (st, env) = ((st1, env1), sent, inr tt) /\
    AuthContext.loading st1 = false /\
    (length sent <= 1)%nat /\
    Api.location_href env1 = Api.location_href env.
Proof.
  rewrite init_result.
  destruct (Api.localStorage env !! "token") as [t |].
  2: { do 3 eexists. split; [reflexivity |]. cbn. repeat split. lia. }
  destruct (String.eqb t "").
  { do 3 eexists. split; [reflexivity |]. cbn. repeat split. lia. }
  destruct (auth_call_result (Api.GetCurrentUser t)) as [req H].
  cbn [Api.perform_auth] in H. rewrite H.
  match goal with |- context [match ?x with inl _ => _ | inr _ => _ end] =>
    destruct x end;
    do 3 eexists; (split; [reflexivity |]); cbn; repeat split; lia.
Qed.

(** X13. A stored token that [getCurrentUser] rejects is thrown away by the
    mount effect: the [token] item is removed from [localStorage], the token
    cell is [null] and the user cell is untouched, so that afterwards every
    dashboard call rejects without sending a request.  A token that
    [getCurrentUser] accepts stays stored, and the user cell holds the body
    of the response. *)
Theorem init_discards_rejected_token
    (net : Api.Request -> thrown + Api.Response)
    (st : AuthContext.AuthState) (env : Api.Env) (t : string) :
  Api.localStorage env !! "token" = Some t ->
  t <> "" ->
  let st1 := fst (fst (fst (AuthContext.init net (st, env)))) in
  let env1 := snd (fst (fst (AuthContext.init net (st, env)))) in
  match snd (Api.getCurrentUser t net env) with
  | inl _ =>
      Api.localStorage env1 !! "token" = None /\
      AuthContext.token st1 = Some JNull /\
      AuthContext.user st1 = AuthContext.user st /\
      forall c net',
        Api.perform c net' env1 =
        (env1, [], inl (ErrorObj "Authentication required. Please log in."))
  | inr userData =>
      env1 = env /\
      AuthContext.token st1 = Some (JStr t) /\
      AuthContext.user st1 = userData
  end.
Proof.
  intros Htok Hne. rewrite init_result, Htok.
  apply String.eqb_neq in Hne. rewrite Hne.
  destruct (getCurrentUser_env t net env) as [sent Hme]. rewrite Hme.
  destruct (snd (Api.getCurrentUser t net env)) as [e | userData]; cbn.
  - assert (Hgone : delete "token" (Api.localStorage env) !! "token" = None)
      by apply lookup_delete_eq.
    repeat split; try assumption.
    intros c net'. destruct (perform_frame_bearer c) as [mk [_ ->]].
    apply frame_without_token. now left.
  - repeat split.
Qed.

Lemma init_discards_rejected_token_witness :
  Api.localStorage
    (snd (fst (fst (AuthContext.init (Fixtures.answer Fixtures.wrong_password)
                      (AuthContext.initial, Fixtures.signed_in))))) !! "token" = None /\
  AuthContext.token
    (fst (fst (fst (AuthContext.init (Fixtures.answer Fixtures.wrong_password)
                      (AuthContext.initial, Fixtures.signed_in))))) = Some JNull.
Proof.
  assert (Hne : "abc" <> "") by discriminate.
  pose proof (init_discards_rejected_token (Fixtures.answer Fixtures.wrong_password)
                AuthContext.initial Fixtures.signed_in "abc" eq_refl Hne) as H.
  cbn in H. destruct H as [Hgone [Htok _]]. split; assumption.
Defined.

(** X14. [logout] removes the stored token and sets the token and user
    cells to [null]; afterwards every dashboard call rejects without sending
    a request, and, once loading is over, [ProtectedRoute] renders nothing
    and sends the router to [/login]. *)
Theorem logout_blocks_dashboard
    (net : Api.Request -> thrown + Api.Response)
    (st : AuthContext.AuthState) (env : Api.Env) :
  exists st1 env1,
    AuthContext.logout net (st, env) = ((st1, env1), [], inr tt) /\
    AuthContext.user st1 = JNull /\
    AuthContext.token st1 = Some JNull /\
    Api.localStorage env1 !! "token" = None /\
    (forall c net',
       Api.perform c net' env1 =
       (env1, [], inl (ErrorObj "Authentication required. Please log in."))) /\
    (AuthContext.loading st = false ->
     AuthContext.ProtectedRoute st1 = AuthContext.Nothing /\
     AuthContext.ProtectedRoute_effect st1 = Some "/login").
Proof.
  do 2 eexists. split; [reflexivity |]. cbn [AuthContext.user AuthContext.token].
  assert (Hgone : delete "token" (Api.localStorage env) !! "token" = None)
    by apply lookup_delete_eq.
  repeat split; try assumption.
  - intros c net'. destruct (perform_frame_bearer c) as [mk [_ ->]].
    apply frame_without_token. now left.
  - unfold AuthContext.ProtectedRoute. cbn. now rewrite H.
  - unfold AuthContext.ProtectedRoute_effect. cbn. now rewrite H.
Qed.

(** X15. After a dashboard call has received a 401, a provider that mounts
    afresh on the browser state the call left finds no token: its mount
    effect sends nothing, the user stays [null], and [ProtectedRoute]
    renders nothing and sends the router to [/login]. *)
Theorem expired_session_is_signed_out
    (c : Api.call) (net net' : Api.Request -> thrown + Api.Response)
    (env env1 : Api.Env) (sent : list Api.Request) (r : thrown + option json)
    (req : Api.Request) (response : Api.Response) :
  Api.perform c net env = (env1, sent, r) ->
  In req sent ->
  net req = inr response ->
  Api.status response = 401 ->
  exists st1,
    AuthContext.init net' (AuthContext.initial, env1) = ((st1, env1), [], inr tt) /\
    AuthContext.user st1 = JNull /\
    AuthContext.ProtectedRoute st1 = AuthContext.Nothing /\
    AuthContext.ProtectedRoute_effect st1 = Some "/login".
Proof.
  intros Hrun Hin Hnet H401.
  destruct (perform_received c net env env1 sent r req response Hrun Hin Hnet) as [Henv _].
  rewrite (handle_unauthorized response net env H401) in Henv. cbn in Henv.
  assert (Hgone : Api.localStorage env1 !! "token" = None).
  { rewrite Henv. apply lookup_delete_eq. }
  eexists. split.
  - rewrite init_result, Hgone. reflexivity.
  - repeat split.
Qed.

Lemma expired_session_is_signed_out_witness :
  exists st1,
    AuthContext.init Fixtures.auth_backend
      (AuthContext.initial,
       fst (fst (Api.perform (Api.GetActivities None None) Fixtures.expired
                   Fixtures.signed_in))) =
      ((st1, fst (fst (Api.perform (Api.GetActivities None None) Fixtures.expired
                         Fixtures.signed_in))), [], inr tt) /\
    AuthContext.ProtectedRoute_effect st1 = Some "/login".
Proof.
  destruct (Api.perform (Api.GetActivities None None) Fixtures.expired Fixtures.signed_in)
    as [[env1 sent] r] eqn:Hrun.
  assert (Hsent : In {| Api.method := "GET";
                        Api.path := "/api/dashboard/activities";
                        Api.query := [("limit", "50"); ("offset", "0")];
                        Api.headers := [("Authorization", "Bearer abc")];
                        Api.body := None |} sent).
  { vm_compute in Hrun. injection Hrun as <- <- <-. left. reflexivity. }
  destruct (expired_session_is_signed_out (Api.GetActivities None None) Fixtures.expired
              Fixtures.auth_backend Fixtures.signed_in env1 sent r _ _ Hrun Hsent
              eq_refl eq_refl) as [st1 [Hinit [_ [_ Heff]]]].
  exists st1. split; assumption.
Defined.

(** * Further properties of [useDashboard] *)

Lemma existsb_forget (f : nat * ApiCall -> bool) (rid : nat)
    (l : list (nat * ApiCall)) (c : ApiCall) :
  awaited rid l = Some c ->
  f (rid, c) = false ->
  existsb f (forget rid l) = existsb f l.
Proof.
  induction l as [| [n c'] rest IH]; simpl; [discriminate |].
  destruct (Nat.eqb_spec n rid) as [-> | Hne].
  - intros [= ->] Hf. now rewrite Hf.
  - intros Ha Hf. simpl. now rewrite IH.
Qed.

Lemma flags_sound_step (h h1 : Hook) (e : event) :
  flags_sound h = true -> step h e = Some h1 -> flags_sound h1 = true.
Proof.
  unfold flags_sound, fetching, stats_fetching. intros Hinv.
  destruct e as [| l o | sd ed | new | i | | | rid s]; cbn [step].
  - intros [= <-]. cbn. rewrite !existsb_app. cbn. now rewrite !orb_true_r.
  - intros [= <-]. cbn. rewrite !existsb_app. cbn.
    rewrite orb_true_r, orb_false_r. cbn.
    now apply andb_prop in Hinv as [_ ->].
  - intros [= <-]. cbn. rewrite !existsb_app. cbn.
    rewrite orb_true_r, orb_false_r, andb_true_r.
    now apply andb_prop in Hinv as [-> _].
  - intros [= <-]. cbn. rewrite !existsb_app. cbn. now rewrite !orb_false_r.
  - intros [= <-]. cbn. rewrite !existsb_app. cbn. now rewrite !orb_false_r.
  - intros [= <-]. cbn. rewrite !existsb_app. cbn. now rewrite !orb_true_r.
  - intros [= <-]. unfold loadMore, bind, read.
    destruct (negb _ || _); [exact Hinv |].
    cbn. rewrite !existsb_app. cbn. rewrite orb_true_r, orb_false_r. cbn.
    now apply andb_prop in Hinv as [_ ->].
  - destruct (awaited rid (inflight h)) as [c |] eqn:Ha; [| discriminate].
    apply andb_prop in Hinv as [Hact Hstats].
    destruct c as [l o | sd ed | new | i], s as [err | [page | stats | a |]];
      cbn [resume]; try discriminate; intros [= <-]; cbn;
      rewrite ?existsb_app; cbn; rewrite ?orb_true_r, ?orb_false_r, ?andb_true_r;
      try reflexivity;
      try (rewrite (existsb_forget _ _ _ _ Ha) by reflexivity; assumption);
      try (rewrite !(existsb_forget _ _ _ _ Ha) by reflexivity;
           now rewrite Hact, ?Hstats).
Qed.

Lemma flags_sound_run (es : list event) :
  forall h h1, flags_sound h = true -> run h es = Some h1 -> flags_sound h1 = true.
Proof.
  induction es as [| e rest IH]; simpl; intros h h1 Hinv.
  - intros [= <-]. exact Hinv.
  - destruct (step h e) as [h2 |] eqn:Hs; [| discriminate].
    apply IH. eapply flags_sound_step; eauto.
Qed.

(** X16. In every state the hook can reach once its mount effect has run,
    a set activities loading flag means a page fetch is in flight, and a set
    stats loading flag means a stats fetch is in flight; so when no promise
    is awaited any more, [isLoading] is false. *)
Theorem loading_means_in_flight (es : list event) (h : Hook) :
  run (snd (mount initial)) es = Some h ->
  (loading (activitiesState h) = true -> fetching h = true) /\
  (stats_loading (statsState h) = true -> stats_fetching h = true) /\
  (inflight h = [] -> isLoading h = false).
Proof.
  intros Hrun.
  pose proof (flags_sound_run es (snd (mount initial)) h eq_refl Hrun) as Hinv.
  apply andb_prop in Hinv as [Hact Hstats].
  split; [| split].
  - intros Hl. now rewrite Hl in Hact.
  - intros Hl. now rewrite Hl in Hstats.
  - intros Hnone. unfold isLoading, fetching, stats_fetching in *.
    rewrite Hnone in Hact, Hstats. cbn in Hact, Hstats.
    destruct (loading (activitiesState h)); [discriminate |].
    destruct (stats_loading (statsState h)); [discriminate | reflexivity].
Qed.

Lemma loading_means_in_flight_witness :
  run (snd (mount initial)) (List.tl Fixtures.overlapping_refresh) =
    Some Fixtures.overlap_state /\
  stats_fetching Fixtures.overlap_state = true.
Proof.
  split; [reflexivity |].
  destruct (loading_means_in_flight (List.tl Fixtures.overlapping_refresh)
              Fixtures.overlap_state eq_refl) as [_ [Hstats _]].
  exact (Hstats eq_refl).
Defined.

Lemma aligned_spec (h : Hook) :
  aligned h = true <->
  limit (pagination h) = 10 /\
  0 <= offset (pagination h) /\
  offset (pagination h) mod 10 = 0 /\
  forallb aligned_call (inflight h) = true.
Proof.
  unfold aligned, DEFAULT_LIMIT.
  rewrite !andb_true_iff, Z.eqb_eq, Z.leb_le, Z.eqb_eq. tauto.
Qed.

Lemma aligned_call_spec (n : nat) (l o : Z) :
  aligned_call (n, Call_getActivities l o) = true <-> l = 10 /\ 0 <= o /\ o mod 10 = 0.
Proof.
  unfold aligned_call, DEFAULT_LIMIT. cbn [snd].
  rewrite !andb_true_iff, Z.eqb_eq, Z.leb_le, Z.eqb_eq. tauto.
Qed.

Lemma aligned_issue (h h1 : Hook) (c : ApiCall) :
  pagination h1 = pagination h ->
  inflight h1 = (inflight h ++ [(issued h, c)])%list ->
  aligned_call (issued h, c) = true ->
  aligned h = true -> aligned h1 = true.
Proof.
  rewrite !aligned_spec. intros -> -> Hc (Hl & Ho & Hm & Hall).
  repeat split; try assumption.
  rewrite forallb_app, Hall. cbn [forallb]. now rewrite Hc.
Qed.

(** Under the page's usage the cursor and every awaited page fetch stay on
    multiples of the default page size. *)
Lemma aligned_step (h h1 : Hook) (e : event) :
  uses_defaults e = true ->
  aligned h = true ->
  step h e = Some h1 ->
  aligned h1 = true.
Proof.
  intros He Hinv. pose proof (proj1 (aligned_spec h) Hinv) as (Hl & Ho & Hm & Hall).
  destruct e as [| l o | sd ed | new | i | | | rid s]; cbn [step].
  - intros [= <-].
    apply (aligned_issue (snd (fetchActivities None None h)) _
             (Call_getActivityStats None None)); try reflexivity.
    now apply (aligned_issue h _ (Call_getActivities DEFAULT_LIMIT 0)).
  - destruct l as [l |], o as [o |]; try discriminate. intros [= <-].
    now apply (aligned_issue h _ (Call_getActivities DEFAULT_LIMIT 0)).
  - intros [= <-]. now apply (aligned_issue h _ (Call_getActivityStats sd ed)).
  - intros [= <-]. now apply (aligned_issue h _ (Call_createActivity new)).
  - intros [= <-]. now apply (aligned_issue h _ (Call_deleteActivity i)).
  - intros [= <-]. apply aligned_spec. cbn.
    repeat split; try assumption; try lia.
    rewrite !forallb_app, Hall. cbn. unfold aligned_call, DEFAULT_LIMIT. cbn.
    rewrite Hl. reflexivity.
  - intros [= <-]. unfold loadMore, bind, read.
    destruct (negb _ || _); [exact Hinv |].
    apply (aligned_issue h _
             (Call_getActivities (limit (pagination h))
                (offset (pagination h) + limit (pagination h)))); try reflexivity;
      [| exact Hinv].
    apply aligned_call_spec. rewrite Hl. repeat split; try lia.
    rewrite <- (Z_mod_plus_full (offset (pagination h)) 1 10) in Hm.
    now rewrite Z.mul_1_l in Hm.
  - destruct (awaited rid (inflight h)) as [c |] eqn:Ha; [| discriminate].
    pose proof (awaited_page_size _ _ _ _ Hall Ha) as Hc.
    pose proof (forallb_forget _ rid _ Hall) as Hrest.
    destruct c as [l o | sd ed | new | i], s as [err | [page | stats | a |]];
      cbn [resume]; try discriminate; intros [= <-];
      apply aligned_spec; cbn; rewrite ?forallb_app, ?Hrest;
      try (repeat split; (assumption || reflexivity)).
    apply aligned_call_spec in Hc. destruct Hc as (-> & Ho' & Hm').
    repeat split; assumption.
Qed.

Lemma aligned_run (es : list event) :
  forall h h1,
    forallb uses_defaults es = true ->
    aligned h = true ->
    run h es = Some h1 ->
    aligned h1 = true.
Proof.
  induction es as [| e rest IH]; simpl; intros h h1 Hes Hinv.
  - intros [= <-]. exact Hinv.
  - apply andb_prop in Hes as [He Hrest].
    destruct (step h e) as [h2 |] eqn:Hs; [| discriminate].
    apply (IH h2 h1 Hrest). eapply aligned_step; eauto.
Qed.

(** X17. As long as [fetchActivities] is only called without arguments, as
    the dashboard page does, every state the hook reaches has a cursor with
    limit 10 and an offset that is a non-negative multiple of 10, and every
    page fetch it awaits asks for 10 records at such an offset.  So when
    [loadMore] goes ahead it asks for [offset + 10], which is never 0, and
    whenever that promise is fulfilled, whatever has happened to the hook in
    between, the page goes behind the list held at that moment and the
    cursor becomes [offset + 10]. *)
Theorem default_usage_appends (es : list event) (h : Hook) :
  forallb uses_defaults es = true ->
  run initial es = Some h ->
  limit (pagination h) = 10 /\
  0 <= offset (pagination h) /\
  offset (pagination h) mod 10 = 0 /\
  (forall rid l o,
     awaited rid (inflight h) = Some (Call_getActivities l o) ->
     l = 10 /\ 0 <= o /\ o mod 10 = 0) /\
  (hasMore (pagination h) = true ->
   loading (activitiesState h) = false ->
   let next := Call_getActivities 10 (offset (pagination h) + 10) in
   exists h1,
     step h LoadMore = Some h1 /\
     inflight h1 = (inflight h ++ [(issued h, next)])%list /\
     awaited (issued h) (inflight h1) = Some next /\
     offset (pagination h) + 10 <> 0 /\
     forall (h2 : Hook) (page : list Activity),
       awaited (issued h) (inflight h2) = Some next ->
       exists h3,
         step h2 (Settle (issued h) (inr (Activities page))) = Some h3 /\
         data (activitiesState h3) = (data (activitiesState h2) ++ page)%list /\
         pagination h3 =
           {| limit := 10;
              offset := offset (pagination h) + 10;
              hasMore := Z.of_nat (length page) =? 10 |}).
Proof.
  intros Hes Hrun.
  pose proof (aligned_run es initial h Hes eq_refl Hrun) as Hinv.
  apply aligned_spec in Hinv as (Hl & Ho & Hm & Hall).
  pose proof (wf_reachable es h Hrun) as Hwf.
  split; [exact Hl |]. split; [exact Ho |]. split; [exact Hm |]. split.
  - intros rid l o Ha. apply (aligned_call_spec rid).
    exact (awaited_page_size _ _ _ _ Hall Ha).
  - intros Hmore Hidle next.
    exists (snd (fetchActivities (Some (limit (pagination h)))
                   (Some (offset (pagination h) + limit (pagination h))) h)).
    split; [| split; [| split; [| split]]].
    + cbn [step]. unfold loadMore, bind, read. rewrite Hmore, Hidle. reflexivity.
    + cbn. unfold next. now rewrite Hl.
    + rewrite fetchActivities_awaited by exact Hwf. cbn. unfold next. now rewrite Hl.
    + lia.
    + intros h2 page Ha. eexists.
      split; [apply (settle_fetch_success _ _ _ _ _ Ha) |].
      cbn. destruct (Z.eqb_spec (offset (pagination h) + 10) 0) as [Hz | _]; [lia |].
      split; reflexivity.
Qed.

Lemma default_usage_appends_witness :
  exists h2 h3,
    run Fixtures.overlap_state
      [LoadMore;
       CreateActivity Fixtures.login_data;
       Settle 5 (inr (Created (Fixtures.sample 14)))] = Some h2 /\
    step h2 (Settle 4 (inr (Activities (Fixtures.page_from 11 3)))) = Some h3 /\
    data (activitiesState h3) =
      (Fixtures.sample 14 :: Fixtures.page_from 1 10 ++ Fixtures.page_from 11 3)%list /\
    pagination h3 = {| limit := 10; offset := 10; hasMore := false |}.
Proof.
  destruct (default_usage_appends Fixtures.overlapping_refresh Fixtures.overlap_state
              eq_refl eq_refl)
    as (_ & _ & _ & _ & Hload).
  destruct (Hload eq_refl eq_refl) as (h1 & _ & _ & _ & _ & Hsettle).
  set (h2 := snd (createActivity_resume (inr (Fixtures.sample 14))
                    (settled_at 5
                       (snd (createActivity Fixtures.login_data
                               (snd (loadMore Fixtures.overlap_state))))))).
  destruct (Hsettle h2 (Fixtures.page_from 11 3) eq_refl) as (h3 & H3 & Hdata & Hp).
  exists h2, h3. split; [reflexivity |]. split; [exact H3 |].
  split; [exact Hdata | exact Hp].
Defined.

(** X18. Once a page fetch is fulfilled with a page whose length differs
    from the requested limit, [loadMore] does nothing at all, and the list
    component shows no Load More button. *)
Theorem short_page_ends_pagination
    (h : Hook) (rid : nat) (limit offset : Z) (page : list Activity) :
  awaited rid (inflight h) = Some (Call_getActivities limit offset) ->
  Z.of_nat (length page) <> limit ->
  exists h1,
    step h (Settle rid (inr (Activities page))) = Some h1 /\
    loadMore h1 = (tt, h1) /\
    forall rows skeleton, ActivityList.of_hook h1 <> ActivityList.Listing rows skeleton true.
Proof.
  intros Ha Hshort. apply Z.eqb_neq in Hshort.
  eexists. split; [apply (settle_fetch_success _ _ _ _ _ Ha) |]. split.
  - unfold loadMore, bind, read. cbn. now rewrite Hshort.
  - intros rows skeleton. unfold ActivityList.of_hook, ActivityList.render. cbn.
    rewrite Hshort. destruct (Z.of_nat _ =? 0); discriminate.
Qed.

Lemma short_page_ends_pagination_witness :
  exists h1,
    step (snd (mount initial)) (Settle 0 (inr (Activities (Fixtures.page_from 1 3)))) =
      Some h1 /\
    loadMore h1 = (tt, h1).
Proof.
  assert (Hshort : Z.of_nat (length (Fixtures.page_from 1 3)) <> 10) by discriminate.
  destruct (short_page_ends_pagination (snd (mount initial)) 0%nat 10 0
              (Fixtures.page_from 1 3) eq_refl Hshort) as [h1 [Hstep [Hnoop _]]].
  exists h1. split; assumption.
Defined.

(** X19. A [loadMore] whose request is rejected does not move the cursor:
    the list and the pagination are as before, the error message is set,
    and the next [loadMore] asks for the very same page again. *)
Theorem failed_loadMore_can_be_repeated (h : Hook) (err : thrown) :
  wf h = true ->
  hasMore (pagination h) = true ->
  loading (activitiesState h) = false ->
  let next :=
    Call_getActivities (limit (pagination h))
      (offset (pagination h) + limit (pagination h)) in
  exists h2 h3,
    run h [LoadMore; Settle (issued h) (inl err)] = Some h2 /\
    data (activitiesState h2) = data (activitiesState h) /\
    pagination h2 = pagination h /\
    inflight h2 = inflight h /\
    error (activitiesState h2) =
      Some (errorMessage err "Failed to fetch activities. Please try again.") /\
    step h2 LoadMore = Some h3 /\
    inflight h3 = (inflight h ++ [(S (issued h), next)])%list /\
    error (activitiesState h3) = None.
Proof.
  intros Hwf Hmore Hidle next.
  assert (H1 : step h LoadMore =
               Some (snd (fetchActivities (Some (limit (pagination h)))
                            (Some (offset (pagination h) + limit (pagination h))) h))).
  { cbn [step]. unfold loadMore, bind, read. rewrite Hmore, Hidle. reflexivity. }
  pose proof (settle_fetch_failure _ _ _ _ err
                (fetchActivities_awaited h (Some (limit (pagination h)))
                   (Some (offset (pagination h) + limit (pagination h))) Hwf)) as H2.
  eexists. eexists. split.
  - cbn [run]. rewrite H1, H2. reflexivity.
  - cbn [data activitiesState pagination inflight error snd fetchActivities bind
           setActivitiesState call].
    assert (Hforget : forget (issued h) (inflight h ++ [(issued h, next)]) = inflight h)
      by (apply forget_app_fresh, wf_spec, Hwf).
    split; [reflexivity |]. split; [reflexivity |]. split; [exact Hforget |].
    split; [reflexivity |]. split.
    + cbn [step]. unfold loadMore, bind, read. cbn. rewrite Hmore. reflexivity.
    + cbn. fold next. rewrite Hforget. split; reflexivity.
Qed.

Lemma failed_loadMore_can_be_repeated_witness :
  exists h2 h3,
    run Fixtures.overlap_state [LoadMore; Settle 4 (inl (ErrorObj "Failed to fetch"))] =
      Some h2 /\
    pagination h2 = {| limit := 10; offset := 0; hasMore := true |} /\
    step h2 LoadMore = Some h3 /\
    inflight h3 =
      (inflight Fixtures.overlap_state ++ [(5%nat, Call_getActivities 10 10)])%list.
Proof.
  destruct (failed_loadMore_can_be_repeated Fixtures.overlap_state
              (ErrorObj "Failed to fetch") eq_refl eq_refl eq_refl)
    as (h2 & h3 & Hrun & _ & Hp & _ & _ & Hstep & Hcalls & _).
  exists h2, h3. repeat split; assumption.
Defined.

Lemma awaited_forget_other (r1 r2 : nat) (l : list (nat * ApiCall)) :
  r1 <> r2 -> awaited r1 (forget r2 l) = awaited r1 l.
Proof.
  intros Hne. induction l as [| [n c] rest IH]; simpl; [reflexivity |].
  destruct (Nat.eqb_spec n r2) as [-> | Hn2].
  - destruct (Nat.eqb_spec r2 r1); [congruence | reflexivity].
  - simpl. destruct (Nat.eqb n r1); [reflexivity | exact IH].
Qed.

Lemma forget_forget (r1 r2 : nat) (l : list (nat * ApiCall)) :
  r1 <> r2 -> forget r1 (forget r2 l) = forget r2 (forget r1 l).
Proof.
  intros Hne. induction l as [| [n c] rest IH]; simpl; [reflexivity |].
  destruct (Nat.eqb n r2) eqn:E2, (Nat.eqb n r1) eqn:E1; simpl; rewrite ?E1, ?E2.
  - apply Nat.eqb_eq in E1, E2. congruence.
  - reflexivity.
  - reflexivity.
  - now rewrite IH.
Qed.

(** X20. The settling of a page fetch and the settling of a stats fetch
    commute: whichever of the two promises settles first, and with whatever
    outcomes, the hook ends in the same state. *)
Theorem page_and_stats_settle_in_any_order
    (h : Hook) (r1 r2 : nat) (limit offset : Z) (startDate endDate : option string)
    (s1 s2 : thrown + payload) :
  awaited r1 (inflight h) = Some (Call_getActivities limit offset) ->
  awaited r2 (inflight h) = Some (Call_getActivityStats startDate endDate) ->
  run h [Settle r1 s1; Settle r2 s2] = run h [Settle r2 s2; Settle r1 s1].
Proof.
  intros H1 H2.
  assert (Hne : r1 <> r2) by (intros ->; congruence).
  assert (Hne' : r2 <> r1) by congruence.
  cbn [run]. unfold step. rewrite H1, H2.
  destruct s1 as [e1 | [p1 | st1 | a1 |]], s2 as [e2 | [p2 | st2 | a2 |]];
    cbn [resume]; try reflexivity;
    cbn;
    rewrite ?(awaited_forget_other r1 r2 _ Hne), ?(awaited_forget_other r2 r1 _ Hne'),
      ?H1, ?H2;
    cbn; rewrite ?(forget_forget r1 r2 _ Hne); reflexivity.
Qed.

Lemma page_and_stats_settle_in_any_order_witness :
  run (snd (mount initial))
    [Settle 0 (inr (Activities (Fixtures.page_from 1 3)));
     Settle 1 (inl (ErrorObj "Failed to fetch"))] =
  run (snd (mount initial))
    [Settle 1 (inl (ErrorObj "Failed to fetch"));
     Settle 0 (inr (Activities (Fixtures.page_from 1 3)))].
Proof.
  apply (page_and_stats_settle_in_any_order (snd (mount initial)) 0%nat 1%nat 10 0 None None);
    reflexivity.
Defined.

(** X21. Two page fetches that overlap do not commute: the one whose
    response arrives last decides.  If the later response belongs to a
    request for offset 0, the list is exactly its page and the cursor is
    its cursor, whatever the earlier response had put there and whichever
    request was issued first. *)
Theorem last_response_wins
    (h : Hook) (r1 r2 : nat) (l1 o1 l2 : Z) (p1 p2 : list Activity) :
  awaited r1 (inflight h) = Some (Call_getActivities l1 o1) ->
  awaited r2 (inflight h) = Some (Call_getActivities l2 0) ->
  r1 <> r2 ->
  exists h2,
    run h [Settle r1 (inr (Activities p1)); Settle r2 (inr (Activities p2))] = Some h2 /\
    data (activitiesState h2) = p2 /\
    pagination h2 =
      {| limit := l2; offset := 0; hasMore := Z.of_nat (length p2) =? l2 |}.
Proof.
  intros H1 H2 Hne. assert (Hne' : r2 <> r1) by congruence.
  eexists. split.
  - cbn [run]. rewrite (settle_fetch_success _ _ _ _ p1 H1).
    rewrite (settle_fetch_success _ r2 l2 0 p2); [reflexivity |].
    cbn [inflight]. now rewrite awaited_forget_other.
  - split; reflexivity.
Qed.

Lemma last_response_wins_witness :
  exists h2,
    run (snd (refreshData (snd (mount initial))))
      [Settle 2 (inr (Activities (Fixtures.page_from 1 10)));
       Settle 0 (inr (Activities (Fixtures.page_from 1 3)))] = Some h2 /\
    data (activitiesState h2) = Fixtures.page_from 1 3 /\
    pagination h2 = {| limit := 10; offset := 0; hasMore := false |}.
Proof.
  assert (Hne : 2%nat <> 0%nat) by discriminate.
  exact (last_response_wins (snd (refreshData (snd (mount initial)))) 2%nat 0%nat 10 0 10
           (Fixtures.page_from 1 10) (Fixtures.page_from 1 3) eq_refl eq_refl Hne).
Defined.

(** X22. When a stats fetch settles, the activities state and the cursor
    are untouched and the stats loading flag is cleared.  A rejection keeps
    the statistics that were shown before and sets the stats error; a
    fulfilment replaces the statistics and clears the error. *)
Theorem stats_settle_keeps_stale_data
    (h : Hook) (rid : nat) (startDate endDate : option string) :
  awaited rid (inflight h) = Some (Call_getActivityStats startDate endDate) ->
  (forall err, exists h1,
     step h (Settle rid (inl err)) = Some h1 /\
     activitiesState h1 = activitiesState h /\
     pagination h1 = pagination h /\
     statsState h1 =
       {| stats_data := stats_data (statsState h);
          stats_loading := false;
          stats_error :=
            Some (errorMessage err "Failed to fetch statistics. Please try again.") |}) /\
  (forall stats, exists h1,
     step h (Settle rid (inr (Stats stats))) = Some h1 /\
     activitiesState h1 = activitiesState h /\
     pagination h1 = pagination h /\
     statsState h1 =
       {| stats_data := Some stats; stats_loading := false; stats_error := None |}).
Proof.
  intros Ha. split; intros x; eexists; (split; [unfold step; rewrite Ha; reflexivity |]);
    repeat split.
Qed.

Lemma stats_settle_keeps_stale_data_witness :
  exists h1,
    step Fixtures.overlap_state (Settle 1 (inl NotAnError)) = Some h1 /\
    activitiesState h1 = activitiesState Fixtures.overlap_state /\
    stats_error (statsState h1) = Some "Failed to fetch statistics. Please try again.".
Proof.
  destruct (proj1 (stats_settle_keeps_stale_data Fixtures.overlap_state 1%nat None None
                     eq_refl) NotAnError) as (h1 & Hstep & Hact & _ & Hstats).
  exists h1. split; [exact Hstep |]. split; [exact Hact |]. now rewrite Hstats.
Defined.

(** X23. Creating a record and then deleting it restores the list: if no
    entry held has the id of the new record, then after the create is
    fulfilled with it and a delete of its id is fulfilled, the accumulated
    list is the one held before. *)
Theorem create_then_delete_restores
    (h : Hook) (rid : nat) (new : ActivityCreateData) (a : Activity) :
  wf h = true ->
  awaited rid (inflight h) = Some (Call_createActivity new) ->
  (forall b, In b (data (activitiesState h)) -> id b <> id a) ->
  exists h3,
    run h [Settle rid (inr (Created a));
           DeleteActivity (id a);
           Settle (S (issued h)) (inr Void)] = Some h3 /\
    data (activitiesState h3) = data (activitiesState h) /\
    pagination h3 = pagination h.
Proof.
  intros Hwf Ha Hfresh. apply wf_spec in Hwf.
  assert (Hdel : awaited (S (issued h))
                   ((forget rid (inflight h) ++
                     [(issued h, Call_getActivityStats None None)]) ++
                    [(S (issued h), Call_deleteActivity (id a))]) =
                 Some (Call_deleteActivity (id a))).
  { apply awaited_app_fresh, Forall_app. split.
    - apply Forall_forget. eapply Forall_impl; [exact Hwf |]. simpl. intros; lia.
    - constructor; [simpl; lia | constructor]. }
  eexists. split.
  - cbn [run]. unfold step at 1. rewrite Ha. cbn [resume].
    cbn [step]. unfold step. cbn. rewrite Hdel. cbn. reflexivity.
  - cbn. split; [| reflexivity].
    rewrite Z.eqb_refl. cbn. apply filter_keeps_all.
    intros b Hb. apply negb_true_iff, Z.eqb_neq. now apply Hfresh.
Qed.

Lemma create_then_delete_restores_witness :
  exists h3,
    run (snd (createActivity Fixtures.login_data Fixtures.overlap_state))
      [Settle 4 (inr (Created (Fixtures.sample 11)));
       DeleteActivity 11;
       Settle 6 (inr Void)] = Some h3 /\
    data (activitiesState h3) = Fixtures.page_from 1 10.
Proof.
  assert (Hfresh : forall b, In b (Fixtures.page_from 1 10) -> id b <> 11).
  { intros b Hb. cbn in Hb.
    repeat (destruct Hb as [<- | Hb]; [discriminate |]). destruct Hb. }
  destruct (create_then_delete_restores
              (snd (createActivity Fixtures.login_data Fixtures.overlap_state)) 4%nat
              Fixtures.login_data (Fixtures.sample 11) eq_refl eq_refl Hfresh)
    as (h3 & Hrun & Hdata & _).
  exists h3. split; assumption.
Defined.

(** X24. The error message of the activities state is written only when a
    page fetch starts or settles and when a create or delete is rejected:
    every other event, a fulfilled create or delete included, leaves a
    message that is shown exactly as it is. *)
Theorem error_survives_other_events (h h1 : Hook) (e : event) :
  writes_error h e = false ->
  step h e = Some h1 ->
  error (activitiesState h1) = error (activitiesState h).
Proof.
  destruct e as [| l o | sd ed | new | i | | | rid s]; cbn [writes_error];
    try discriminate.
  - intros _ [= <-]. reflexivity.
  - intros _ [= <-]. reflexivity.
  - intros _ [= <-]. reflexivity.
  - intros Hw [= <-]. unfold loadMore, bind, read.
    destruct (hasMore (pagination h)), (loading (activitiesState h));
      try discriminate; reflexivity.
  - unfold step. destruct (awaited rid (inflight h)) as [c |]; [| discriminate].
    destruct c as [l o | sd ed | new | i], s as [err | [page | stats | a |]];
      cbn [resume]; try discriminate; intros _ [= <-]; reflexivity.
Qed.

Lemma error_survives_other_events_witness :
  exists h1,
    step (snd (deleteActivity 11 Fixtures.zero_state)) (Settle 5 (inr Void)) = Some h1 /\
    error (activitiesState h1) = error (activitiesState Fixtures.zero_state).
Proof.
  eexists. split; [reflexivity |].
  apply (error_survives_other_events (snd (deleteActivity 11 Fixtures.zero_state)) _
           (Settle 5 (inr Void))); reflexivity.
Defined.

(** X25. What the list component shows agrees with what [loadMore] does.
    When the Load More button is rendered, the skeleton is not, and a click
    issues exactly the request for the next page; when rows are rendered
    without the button, [loadMore] does nothing; the empty state is shown
    only for an empty list that is not loading, and has no button. *)
Theorem load_more_button_is_live (h : Hook) :
  match ActivityList.of_hook h with
  | ActivityList.Listing rows skeleton true =>
      rows = data (activitiesState h) /\
      skeleton = false /\
      inflight (snd (loadMore h)) =
        (inflight h ++
         [(issued h,
           Call_getActivities (limit (pagination h))
             (offset (pagination h) + limit (pagination h)))])%list
  | ActivityList.Listing rows skeleton false =>
      rows = data (activitiesState h) /\ loadMore h = (tt, h)
  | ActivityList.EmptyState =>
      data (activitiesState h) = [] /\ loading (activitiesState h) = false
  end.
Proof.
  unfold ActivityList.of_hook, ActivityList.render, loadMore, bind, read.
  destruct (loading (activitiesState h)), (hasMore (pagination h)); cbn;
    try (split; reflexivity);
    destruct (data (activitiesState h)) as [| a rest]; cbn; repeat split.
Qed.

(** X26. [register] of the provider treats the token as [login] does: if
    the registration request is answered with a body whose [access_token]
    is a non-empty string, the token is stored in [localStorage] and in the
    token cell before the user is asked for, so it stays stored even when
    [getCurrentUser] then rejects, in which case [register] rejects with
    that error and the user cell is unchanged. *)
Theorem register_stores_token
    (net : Api.Request -> thrown + Api.Response)
    (st : AuthContext.AuthState) (env : Api.Env)
    (username email password t : string) (fields : list (string * json)) :
  snd (Api.register {| Api.username := username;
                       Api.email := email;
                       Api.password := password |} net env) = inr (JObj fields) ->
  assoc "access_token" fields = Some (JStr t) ->
  t <> "" ->
  exists st1 env1 sent r,
    AuthContext.register username email password net (st, env) = ((st1, env1), sent, r) /\
    Api.localStorage env1 !! "token" = Some t /\
    AuthContext.token st1 = Some (JStr t) /\
    Api.getAuthToken net env1 = (env1, [], inr t) /\
    match snd (Api.getCurrentUser t net env) with
    | inr userData => r = inr tt /\ AuthContext.user st1 = userData
    | inl e => r = inl e /\ AuthContext.user st1 = AuthContext.user st
    end.
Proof.
  intros Hreg Htok Hne.
  destruct (auth_call_result
              (Api.Register {| Api.username := username;
                               Api.email := email;
                               Api.password := password |}))
    as [req Hreq].
  cbn [Api.perform_auth] in Hreq. rewrite Hreq in Hreg. cbn [snd] in Hreg.
  unfold AuthContext.register, AuthContext.bind at 1, AuthContext.lift at 1.
  cbn [fst snd]. rewrite Hreq, Hreg.
  unfold AuthContext.bind at 1, AuthContext.lift at 1. cbn [fst snd get_prop Api.await].
  rewrite Htok. cbn [Api.ret].
  unfold AuthContext.bind at 1, AuthContext.lift at 1, AuthContext.setItem. cbn [fst snd].
  unfold AuthContext.bind at 1, AuthContext.setToken at 1. cbn [fst snd].
  unfold AuthContext.bind at 1, AuthContext.lift at 1. cbn [fst snd AuthContext.template ToString].
  set (env1 := {| Api.localStorage := <["token" := t]> (Api.localStorage env);
                  Api.location_href := Api.location_href env |}).
  destruct (getCurrentUser_env t net env1) as [sent2 Hme]. rewrite Hme.
  rewrite (getCurrentUser_any_env t net env env1).
  assert (Hstored : Api.localStorage env1 !! "token" = Some t) by apply lookup_insert_eq.
  assert (Hget : Api.getAuthToken net env1 = (env1, [], inr t)).
  { unfold Api.getAuthToken, Api.bind, Api.getItem. rewrite Hstored.
    apply String.eqb_neq in Hne. now rewrite Hne. }
  destruct (snd (Api.getCurrentUser t net env1)) as [e | userData].
  - do 4 eexists. split; [reflexivity |]. repeat split; assumption.
  - do 4 eexists. split; [reflexivity |]. repeat split; assumption.
Qed.

Lemma register_stores_token_witness :
  exists st1 env1 sent e,
    AuthContext.register "ann" "ann@example.org" "secret" Fixtures.signup_only
      (AuthContext.initial, Fixtures.signed_out) = ((st1, env1), sent, inl e) /\
    Api.localStorage env1 !! "token" = Some "abc" /\
    AuthContext.user st1 = JNull.
Proof.
  assert (Hne : "abc" <> "") by discriminate.
  destruct (register_stores_token Fixtures.signup_only
              AuthContext.initial Fixtures.signed_out
              "ann" "ann@example.org" "secret" "abc"
              [("access_token", JStr "abc"); ("token_type", JStr "bearer")]
              eq_refl eq_refl Hne)
    as [st1 [env1 [sent [r [Hrun [Hstored [_ [_ Hme]]]]]]]].
  cbn in Hme. destruct Hme as [-> Huser].
  exists st1, env1, sent. eexists. repeat split; eassumption.
Defined.
